(** * IMMERZO backend: OTP ledger and inquiry submission handlers

    A shallow embedding of [src/main.py] (the FastAPI handlers) and of the
    field constraints of [src/schemas.py].

    - Python dictionaries and the schemaless documents of the store are
      finite maps from field names to a small universe of values.
    - The handlers run in a state-and-exception monad over a [World]: the
      process-wide database handle, the local upload directory, and the
      number of clock readings taken so far.
    - The wall clock is an oracle [clock : nat -> Instant]: the [n]-th call
      of [datetime.now] in the life of the process returns [clock n].
    - Request models are records: a handler receives an instance whose
      fields already have their declared types, as the framework hands it
      over.  The declared field constraints are boolean predicates. *)

From Stdlib Require Import ZArith PrimFloat Ascii Strings.Byte.
From stdpp Require Import gmap strings list fin_maps.

Local Open Scope string_scope.
Local Open Scope Z_scope.

(* ===================================================================== *)
(** * Values, dictionaries and documents *)
(* ===================================================================== *)

(** What a dictionary of this program can hold: [None], booleans, strings,
    integers, floats, timezone-aware timestamps (microseconds since the
    epoch), store identifiers, and nested dictionaries. *)
Inductive value :=
  | VNull
  | VBool (b : bool)
  | VStr (s : string)
  | VInt (z : Z)
  | VFloat (f : float)
  | VTime (t : Z)
  | VOid (n : N)
  | VDoc (d : gmap string value).

Notation doc := (gmap string value).

(** Python truthiness, [bool(v)]. *)
Definition truthy (v : value) : bool :=
  match v with
  | VNull => false
  | VBool b => b
  | VStr s => negb (String.eqb s "")
  | VInt z => negb (z =? 0)
  | VFloat f => negb (PrimFloat.eqb f 0%float)
  | VTime _ => true
  | VOid _ => true
  | VDoc d => negb (size d =? 0)%nat
  end.

(** An [Optional[str]] attribute seen as a value. *)
Definition of_optional_str (o : option string) : value :=
  match o with Some s => VStr s | None => VNull end.

(** Equality of scalar values, as the store's equality match and Python's
    [==] decide it on the values this program compares (strings and
    identifiers).  Nested dictionaries are never compared. *)
Definition value_eqb (a b : value) : bool :=
  match a, b with
  | VNull, VNull => true
  | VBool x, VBool y => Bool.eqb x y
  | VStr x, VStr y => String.eqb x y
  | VInt x, VInt y => x =? y
  | VFloat x, VFloat y => PrimFloat.eqb x y
  | VTime x, VTime y => x =? y
  | VOid x, VOid y => (x =? y)%N
  | _, _ => false
  end.

(** [d.get(k)]: a missing key reads as [None]. *)
Definition dict_get (d : doc) (k : string) : value :=
  default VNull (d !! k).

(** [timedelta(minutes=n)], in microseconds. *)
Definition timedelta_minutes (n : Z) : Z := n * 60 * 1000000.

(* ===================================================================== *)
(** * Clock readings and [strftime] *)
(* ===================================================================== *)

(** Naive local wall-clock fields, as [datetime.now()] returns them. *)
Record DateTime := {
  year : nat; month : nat; day : nat;
  hour : nat; minute : nat; second : nat
}.

(** One reading of the clock: the aware UTC timestamp in microseconds
    ([datetime.now(timezone.utc)]) and the naive local fields
    ([datetime.now()]). *)
Record Instant := { utc : Z; local : DateTime }.

Definition digit (n : nat) : ascii :=
  match (n mod 10)%nat with
  | 0%nat => "0" | 1%nat => "1" | 2%nat => "2" | 3%nat => "3" | 4%nat => "4"
  | 5%nat => "5" | 6%nat => "6" | 7%nat => "7" | 8%nat => "8" | _ => "9"
  end%char.

Definition pad2 (n : nat) : string :=
  String (digit (n / 10)) (String (digit n) "").

Definition pad4 (n : nat) : string :=
  String (digit (n / 1000)) (String (digit (n / 100)) (pad2 n)).

(** [t.strftime('%Y%m%d%H%M%S')]: fourteen decimal digits (years run from
    1 to 9999 in [datetime]). *)
Definition strftime_YmdHMS (t : DateTime) : string :=
  pad4 (year t) +:+ pad2 (month t) +:+ pad2 (day t) +:+
  pad2 (hour t) +:+ pad2 (minute t) +:+ pad2 (second t).

(** [os.path.join(a, b)] on a POSIX system. *)
Definition os_path_join (a b : string) : string :=
  match b with
  | String "/" _ => b
  | _ =>
      if String.eqb a "" then b
      else if String.eqb (String.substring (String.length a - 1)%nat 1 a) "/" then a +:+ b
      else a +:+ "/" +:+ b
  end.

(* ===================================================================== *)
(** * The document store *)
(* ===================================================================== *)

(** A connected database: named collections, each a sequence of documents
    in insertion order, and the next identifier the store will assign. *)
Record Database := {
  collections : gmap string (list doc);
  next_oid : N
}.

(** [db[name]]: a collection that was never written to is empty. *)
Definition collection (name : string) (d : Database) : list doc :=
  default [] (collections d !! name).

(** Does a document satisfy an equality filter [{k1: v1, k2: v2, ...}]? *)
Definition matches (flt : list (string * value)) (d : doc) : bool :=
  forallb (fun kv => match d !! kv.1 with
                     | Some v => value_eqb v kv.2
                     | None => false
                     end) flt.

(** [coll.find(flt)]: the matching documents, in natural order. *)
Definition find (flt : list (string * value)) (c : list doc) : list doc :=
  List.filter (matches flt) c.

(** The sort key of a document for a timestamp field: documents without
    the field, or holding a value that is not a timestamp there, sort
    below every timestamp. *)
Definition sort_key (field : string) (d : doc) : option Z :=
  match d !! field with
  | Some (VTime t) => Some t
  | _ => None
  end.

Definition key_leb (a b : option Z) : bool :=
  match a, b with
  | None, _ => true
  | Some _, None => false
  | Some x, Some y => x <=? y
  end.

Fixpoint insert_desc (field : string) (d : doc) (l : list doc) : list doc :=
  match l with
  | [] => [d]
  | x :: l' =>
      if key_leb (sort_key field x) (sort_key field d)
      then d :: x :: l'
      else x :: insert_desc field d l'
  end.

(** [cursor.sort(field, -1)]: descending and stable; documents with equal
    keys keep their natural order. *)
Definition sort_desc (field : string) (c : list doc) : list doc :=
  foldr (insert_desc field) [] c.

(** [cursor.limit(n)]. *)
Definition limit (n : nat) (c : list doc) : list doc := take n c.

(** [{"$set": fields}] applied to one document. *)
Definition apply_set (fields : list (string * value)) (d : doc) : doc :=
  foldl (fun acc kv => <[kv.1 := kv.2]> acc) d fields.

(** [coll.update_one(flt, {"$set": fields})]: the first matching document
    is updated, the others are left alone. *)
Fixpoint update_one (flt fields : list (string * value)) (c : list doc)
  : list doc :=
  match c with
  | [] => []
  | d :: c' =>
      if matches flt d then apply_set fields d :: c'
      else d :: update_one flt fields c'
  end.

(** [coll.insert_one(data)]: the store assigns a fresh [_id] and appends
    the document.  The documents this program inserts never carry an
    [_id] of their own. *)
Definition insert_one (name : string) (data : doc) (d : Database)
  : N * Database :=
  let oid := next_oid d in
  (oid,
   {| collections :=
        <[name := (collection name d ++ [<["_id" := VOid oid]> data])%list]>
          (collections d);
      next_oid := N.succ oid |}).

Definition set_collection (name : string) (c : list doc) (d : Database)
  : Database :=
  {| collections := <[name := c]> (collections d); next_oid := next_oid d |}.

Definition hex_digit (n : N) : ascii :=
  match (n mod 16)%N with
  | 0%N => "0" | 1%N => "1" | 2%N => "2" | 3%N => "3" | 4%N => "4"
  | 5%N => "5" | 6%N => "6" | 7%N => "7" | 8%N => "8" | 9%N => "9"
  | 10%N => "a" | 11%N => "b" | 12%N => "c" | 13%N => "d" | 14%N => "e"
  | _ => "f"
  end%char.

Fixpoint hex_digits (width : nat) (n : N) (acc : string) : string :=
  match width with
  | O => acc
  | S w => hex_digits w (n / 16)%N (String (hex_digit n) acc)
  end.

(** [str(oid)]: twenty-four hexadecimal digits. *)
Definition str_oid (n : N) : string := hex_digits 24 n "".

(* ===================================================================== *)
(** * The world and the handler monad *)
(* ===================================================================== *)

(** The process state a handler can see and change: the global database
    handle ([None] when no connection was established), the files on the
    local disk by path, and how many times the clock has been read. *)
Record World := {
  db : option Database;
  files : gmap string (list byte);
  ticks : nat
}.

Definition set_db (d : option Database) (w : World) : World :=
  {| db := d; files := files w; ticks := ticks w |}.

Definition set_files (f : gmap string (list byte)) (w : World) : World :=
  {| db := db w; files := f; ticks := ticks w |}.

Definition set_ticks (n : nat) (w : World) : World :=
  {| db := db w; files := files w; ticks := n |}.

(** The exceptions of the model. *)
Inductive exn :=
  | HTTPException (status_code : Z) (detail : string)
  | StoreUnavailable
  | TypeError
  | KeyError (key : string).

Inductive result (A : Type) :=
  | Ok (a : A)
  | Raise (e : exn).
Arguments Ok {A} a.
Arguments Raise {A} e.

(** A computation returns or raises, and leaves a world behind either
    way: what was written before an exception stays written. *)
Definition M (A : Type) : Type := World -> result A * World.

#[global] Instance M_ret : MRet M := fun A a w => (Ok a, w).

#[global] Instance M_bind : MBind M := fun A B f m w =>
  match m w with
  | (Ok a, w') => f a w'
  | (Raise e, w') => (Raise e, w')
  end.

Definition raise {A} (e : exn) : M A := fun w => (Raise e, w).

(** [try: m  except HTTPException as e: h e]. *)
Definition try_except_HTTPException {A} (m : M A) (h : exn -> M A) : M A :=
  fun w =>
    match m w with
    | (Raise (HTTPException s d), w') => h (HTTPException s d) w'
    | r => r
    end.

(** The three client errors of the OTP check. *)
Definition NotFound : exn := HTTPException 400 "OTP not found".
Definition InvalidCode : exn := HTTPException 400 "Invalid OTP".
Definition Expired : exn := HTTPException 400 "OTP expired".

(** A client error is a response with a 4xx status code. *)
Definition is_client_error (e : exn) : bool :=
  match e with
  | HTTPException s _ => (400 <=? s) && (s <? 500)
  | _ => false
  end.

(* ===================================================================== *)
(** * Request models ([src/main.py]) *)
(* ===================================================================== *)

Module OTPStartRequest.
Record t := { phone : string; purpose : string }.

(** [phone: min_length=10, max_length=15];
    [purpose: pattern=^(franchise|mall)$]. *)
Definition valid (r : t) : bool :=
  (10 <=? String.length (phone r))%nat
  && (String.length (phone r) <=? 15)%nat
  && (String.eqb (purpose r) "franchise" || String.eqb (purpose r) "mall").
End OTPStartRequest.

Module OTPVerifyRequest.
Record t := { phone : string; purpose : string; code : string }.
End OTPVerifyRequest.

Module FranchisePayload.
Record t := {
  full_name : string;
  email : string;
  phone : string;
  investment_capacity_lakhs : float;
  preferred_cities : string;
  city_tier : string;
  message : option string;
  otp_code : option string
}.

(** [payload.model_dump()]: every declared field, by name. *)
Definition model_dump (p : t) : doc :=
  <["full_name" := VStr (full_name p)]>
  (<["email" := VStr (email p)]>
  (<["phone" := VStr (phone p)]>
  (<["investment_capacity_lakhs" := VFloat (investment_capacity_lakhs p)]>
  (<["preferred_cities" := VStr (preferred_cities p)]>
  (<["city_tier" := VStr (city_tier p)]>
  (<["message" := of_optional_str (message p)]>
  (<["otp_code" := of_optional_str (otp_code p)]> ∅))))))).
End FranchisePayload.

(** An uploaded file part: its original name and its bytes. *)
Module UploadFile.
Record t := { filename : string; content : list byte }.
End UploadFile.

(* ===================================================================== *)
(** * Field constraints of the storage schema ([src/schemas.py]) *)
(* ===================================================================== *)

Module FranchiseInquiry.
(** [phone: min_length=10, max_length=15];
    [investment_capacity_lakhs: ge=0];
    [city_tier: Literal["Tier 1", "Tier 2"]]. *)
Definition phone_ok (s : string) : bool :=
  (10 <=? String.length s)%nat && (String.length s <=? 15)%nat.

Definition investment_capacity_lakhs_ok (x : float) : bool :=
  PrimFloat.leb 0%float x.

Definition city_tier_ok (s : string) : bool :=
  String.eqb s "Tier 1" || String.eqb s "Tier 2".

Definition constraints (p : FranchisePayload.t) : bool :=
  phone_ok (FranchisePayload.phone p)
  && investment_capacity_lakhs_ok
       (FranchisePayload.investment_capacity_lakhs p)
  && city_tier_ok (FranchisePayload.city_tier p).
End FranchiseInquiry.

(* ===================================================================== *)
(** * Handlers ([src/main.py]) *)
(* ===================================================================== *)

Definition get_db : M (option Database) := fun w => (Ok (db w), w).

(** The query filter [{"phone": phone, "purpose": purpose}]. *)
Definition otp_filter (phone purpose : string) : list (string * value) :=
  [("phone", VStr phone); ("purpose", VStr purpose)].

(** The [data] dictionary [submit_mall] persists. *)
Definition mall_data
    (contact_name email phone mall_name location_city : string)
    (available_space_sqft : Z) (message : option string)
    (file_meta : value) : doc :=
  <["contact_name" := VStr contact_name]>
  (<["email" := VStr email]>
  (<["phone" := VStr phone]>
  (<["mall_name" := VStr mall_name]>
  (<["location_city" := VStr location_city]>
  (<["available_space_sqft" := VInt available_space_sqft]>
  (<["message" := of_optional_str message]>
  (<["floorplan" := file_meta]> ∅))))))).

(** The [file_meta] dictionary of a stored upload. *)
Definition file_meta_of (filename : string) (content : list byte) : value :=
  VDoc (<["filename" := VStr filename]>
       (<["path" := VStr ("/uploads/" +:+ filename)]>
       (<["size" := VInt (Z.of_nat (length content))]> ∅))).

Definition put_db (d : option Database) : M unit :=
  fun w => (Ok tt, set_db d w).

(** [d[k]]: a missing key raises. *)
Definition dict_getitem (d : doc) (k : string) : M value :=
  match d !! k with
  | Some v => mret v
  | None => raise (KeyError k)
  end.

(** [now > v] for an aware timestamp [now]: defined against another
    timestamp only. *)
Definition datetime_gt (now : Z) (v : value) : M bool :=
  match v with
  | VTime t => mret (t <? now)
  | _ => raise TypeError
  end.

(** [with open(path, "wb") as f: f.write(content)].  The disk is a flat map
    from paths to contents and every write succeeds. *)
Definition write_file (path : string) (content : list byte) : M unit :=
  fun w => (Ok tt, set_files (<[path := content]> (files w)) w).

Section Handlers.

(** The [n]-th reading of the clock since the process started. *)
Variable clock : nat -> Instant.

Definition tick : M Instant :=
  fun w => (Ok (clock (ticks w)), set_ticks (S (ticks w)) w).

(** [datetime.now(timezone.utc)]. *)
Definition datetime_now_utc : M Z := i ← tick; mret (utc i).

(** [datetime.now()]. *)
Definition datetime_now : M DateTime := i ← tick; mret (local i).

(** Modelled from the spec: [create_document] of the [database] module,
    which is not among the sources.  It inserts a new document into the
    named collection, tagging it with a creation timestamp, and returns
    the store-assigned identifier as a string; it fails with
    [StoreUnavailable] if no connection was established.  Persistence
    failures of a connected store are not modelled, and the store hands
    back timestamps as they were written. *)
Definition create_document (collection_name : string) (data : doc)
  : M string :=
  d ← get_db;
  match d with
  | None => raise StoreUnavailable
  | Some dbs =>
      now ← datetime_now_utc;
      let data_dict := <["created_at" := VTime now]> data in
      let r := insert_one collection_name data_dict dbs in
      _ ← put_db (Some r.2);
      mret (str_oid r.1)
  end.

(** [POST /api/otp/start]. *)
Definition start_otp (req : OTPStartRequest.t) : M doc :=
  let code := "123456" in
  now ← datetime_now_utc;
  let expires_at := now + timedelta_minutes 10 in
  _ ← create_document "otprequest"
        (<["phone" := VStr (OTPStartRequest.phone req)]>
        (<["purpose" := VStr (OTPStartRequest.purpose req)]>
        (<["code" := VStr code]>
        (<["verified" := VBool false]>
        (<["expires_at" := VTime expires_at]> ∅)))));
  mret (<["success" := VBool true]>
       (<["message" := VStr "OTP sent"]>
       (<["demo_code" := VStr code]> ∅))).

(** The query of [verify_otp]: the newest record of a phone and purpose,
    or nothing when the database handle is not set. *)
Definition latest_otp (phone purpose : string) (d : option Database)
  : list doc :=
  match d with
  | Some dbs =>
      limit 1
        (sort_desc "created_at"
           (find (otp_filter phone purpose) (collection "otprequest" dbs)))
  | None => []
  end.

(** [POST /api/otp/verify]. *)
Definition verify_otp (req : OTPVerifyRequest.t) : M doc :=
  d ← get_db;
  match latest_otp (OTPVerifyRequest.phone req)
          (OTPVerifyRequest.purpose req) d with
  | [] => raise (HTTPException 400 "OTP not found")
  | rec :: _ =>
      if negb (value_eqb (dict_get rec "code")
                 (VStr (OTPVerifyRequest.code req)))
      then raise (HTTPException 400 "Invalid OTP")
      else
        expired ←
          (if truthy (dict_get rec "expires_at")
           then now ← datetime_now_utc;
                e ← dict_getitem rec "expires_at";
                datetime_gt now e
           else mret false);
        if (expired : bool)
        then raise (HTTPException 400 "OTP expired")
        else
          oid ← dict_getitem rec "_id";
          now ← datetime_now_utc;
          match d with
          | Some dbs =>
              _ ← put_db
                    (Some
                       (set_collection "otprequest"
                          (update_one [("_id", oid)]
                             [("verified", VBool true);
                              ("updated_at", VTime now)]
                             (collection "otprequest" dbs))
                          dbs));
              mret (<["success" := VBool true]> ∅)
          | None => raise TypeError
          end
  end.

(** The optional OTP gate shared by both submission handlers:
    [if otp_code: try: verify_otp(...) except HTTPException as e: raise e]. *)
Definition otp_gate (phone purpose : string) (otp_code : option string)
  : M unit :=
  match otp_code with
  | Some c =>
      if truthy (VStr c)
      then
        try_except_HTTPException
          (_ ← verify_otp
                 {| OTPVerifyRequest.phone := phone;
                    OTPVerifyRequest.purpose := purpose;
                    OTPVerifyRequest.code := c |};
           mret tt)
          (fun e => raise e)
      else mret tt
  | None => mret tt
  end.

(** [POST /api/franchise]. *)
Definition submit_franchise (payload : FranchisePayload.t) : M doc :=
  _ ← otp_gate (FranchisePayload.phone payload) "franchise"
        (FranchisePayload.otp_code payload);
  doc_id ← create_document "franchiseinquiry"
             (FranchisePayload.model_dump payload);
  mret (<["success" := VBool true]> (<["id" := VStr doc_id]> ∅)).

(** The upload step of [submit_mall]: the file goes under
    [public/uploads] with a timestamp in front of its original name, and
    its metadata is returned ([None] without a file part).  On the flat
    disk of the model [os.makedirs(upload_dir, exist_ok=True)] has nothing
    to do. *)
Definition save_floorplan (floorplan : option UploadFile.t) : M value :=
  match floorplan with
  | None => mret VNull
  | Some f =>
      let upload_dir := os_path_join "public" "uploads" in
      now ← datetime_now;
      let filename :=
        strftime_YmdHMS now +:+ "_" +:+ UploadFile.filename f in
      let path := os_path_join upload_dir filename in
      let content := UploadFile.content f in
      _ ← write_file path content;
      mret (file_meta_of filename content)
  end.

(** [POST /api/mall]. *)
Definition submit_mall
    (contact_name email phone mall_name location_city : string)
    (available_space_sqft : Z)
    (message otp_code : option string)
    (floorplan : option UploadFile.t) : M doc :=
  _ ← otp_gate phone "mall" otp_code;
  file_meta ← save_floorplan floorplan;
  let data :=
    mall_data contact_name email phone mall_name location_city
      available_space_sqft message file_meta in
  doc_id ← create_document "mallinquiry" data;
  mret (<["success" := VBool true]>
       (<["id" := VStr doc_id]>
       (<["file" := file_meta]> ∅))).

End Handlers.

(* ===================================================================== *)
(** * Vocabulary of the statements *)
(* ===================================================================== *)

(** [rec] is a most recently created record of [(phone, purpose)]: it is
    in the ledger, it matches, and no matching record was created later. *)
Definition newest_otp (phone purpose : string) (dbs : Database) (rec : doc)
  : Prop :=
  rec ∈ collection "otprequest" dbs
  /\ matches (otp_filter phone purpose) rec = true
  /\ forall d, d ∈ collection "otprequest" dbs ->
       matches (otp_filter phone purpose) d = true ->
       key_leb (sort_key "created_at" d) (sort_key "created_at" rec) = true.




(** The store identifier of a document. *)
Definition oid_of (d : doc) : option N :=
  match d !! "_id" with
  | Some (VOid n) => Some n
  | _ => None
  end.

(** Store identifiers are unique within a collection. *)
Definition unique_ids (c : list doc) : Prop := NoDup (oid_of <$> c).

(** The invariant of a store: every document carries an identifier the
    store has handed out already, and no two documents of a collection
    share one. *)
Definition store_ok (d : Database) : Prop :=
  forall name,
    Forall (fun x => exists n, oid_of x = Some n /\ (n < next_oid d)%N)
      (collection name d)
    /\ unique_ids (collection name d).

Definition world_ok (w : World) : Prop :=
  match db w with
  | Some d => store_ok d
  | None => True
  end.

(** The requests the application routes to a handler that writes. *)
Inductive request :=
  | PostOtpStart (req : OTPStartRequest.t)
  | PostOtpVerify (req : OTPVerifyRequest.t)
  | PostFranchise (payload : FranchisePayload.t)
  | PostMall (contact_name email phone mall_name location_city : string)
      (available_space_sqft : Z) (message otp_code : option string)
      (floorplan : option UploadFile.t).

Definition handle (clock : nat -> Instant) (r : request) : M doc :=
  match r with
  | PostOtpStart req => start_otp clock req
  | PostOtpVerify req => verify_otp clock req
  | PostFranchise payload => submit_franchise clock payload
  | PostMall contact_name email phone mall_name location_city
      available_space_sqft message otp_code floorplan =>
      submit_mall clock contact_name email phone mall_name location_city
        available_space_sqft message otp_code floorplan
  end.

(** The world after a sequence of requests, served one after the other. *)
Definition serve (clock : nat -> Instant) (rs : list request) (w : World)
  : World :=
  foldl (fun w r => (handle clock r w).2) w rs.

(** The record [start_otp] leaves in the ledger: the five fields it
    passes to [create_document], the creation timestamp, and the
    identifier the store assigned. *)
Definition otp_record (oid : N) (created_at : Z) (phone purpose code : string)
    (expires_at : Z) : doc :=
  <["_id" := VOid oid]>
  (<["created_at" := VTime created_at]>
  (<["phone" := VStr phone]>
  (<["purpose" := VStr purpose]>
  (<["code" := VStr code]>
  (<["verified" := VBool false]>
  (<["expires_at" := VTime expires_at]> ∅)))))).

(** The world [start_otp] leaves behind on a connected store [dbs]: one
    more record in the ledger, two more readings of the clock. *)
Definition after_start_otp (clock : nat -> Instant)
    (req : OTPStartRequest.t) (dbs : Database) (w : World) : World :=
  {| db :=
       Some
         {| collections :=
              <["otprequest" :=
                 (collection "otprequest" dbs
                  ++ [otp_record (next_oid dbs)
                        (utc (clock (S (ticks w))))
                        (OTPStartRequest.phone req)
                        (OTPStartRequest.purpose req)
                        "123456"
                        (utc (clock (ticks w)) + timedelta_minutes 10)])%list]>
                (collections dbs);
            next_oid := N.succ (next_oid dbs) |};
     files := files w;
     ticks := S (S (ticks w)) |}.

(** The response of every successful [start_otp]. *)
Definition start_response : doc :=
  <["success" := VBool true]>
  (<["message" := VStr "OTP sent"]>
  (<["demo_code" := VStr "123456"]> ∅)).

(** What a successful [verify_otp] writes on the record it examined. *)
Definition mark_verified (now : Z) (d : doc) : doc :=
  apply_set [("verified", VBool true); ("updated_at", VTime now)] d.


(** What [verify_otp] does to each record of the ledger when identifiers
    are unique: the record with identifier [n] is marked, the others are
    left alone. *)
Definition mark_by_id (now : Z) (n : N) (d : doc) : doc :=
  if matches [("_id", VOid n)] d then mark_verified now d else d.

(** The name [submit_mall] stores an upload under: the local time of the
    request, an underscore, the original name. *)
Definition stored_filename (t : DateTime) (original : string) : string :=
  strftime_YmdHMS t +:+ "_" +:+ original.

(** Where a stored upload lives on disk. *)
Definition upload_path (filename : string) : string :=
  "public/uploads/" +:+ filename.

(** The world after the upload step of [submit_mall]: the file is on
    disk and the clock was read once, for the name. *)
Definition after_upload (path : string) (content : list byte) (w : World)
  : World :=
  {| db := db w; files := <[path := content]> (files w);
     ticks := S (ticks w) |}.

(** The document the store holds after [create_document clock name data]
    ran at clock reading [n] on a store whose next identifier is [oid]. *)
Definition stored_document (clock : nat -> Instant) (n : nat) (oid : N)
    (data : doc) : doc :=
  <["_id" := VOid oid]> (<["created_at" := VTime (utc (clock n))]> data).

(** The responses of the two submission handlers. *)
Definition franchise_response (doc_id : string) : doc :=
  <["success" := VBool true]> (<["id" := VStr doc_id]> ∅).

Definition mall_response (doc_id : string) (file_meta : value) : doc :=
  <["success" := VBool true]>
  (<["id" := VStr doc_id]>
  (<["file" := file_meta]> ∅)).


(** The body of every successful response of [verify_otp]. *)
Definition success_response : doc := <["success" := VBool true]> ∅.


(* ===================================================================== *)
(** * Concrete worlds used to exercise the statements *)
(* ===================================================================== *)

Module Demo.

(** A clock that advances one second per reading, on 7 March 2024. *)
Definition clock (n : nat) : Instant :=
  {| utc := Z.of_nat n * 1000000;
     local := {| year := 2024; month := 3; day := 7;
                 hour := 9; minute := 5; second := n mod 60 |} |}.

(** A connected, empty store; no files; the clock never read. *)
Definition w0 : World :=
  {| db := Some {| collections := ∅; next_oid := 0 |};
     files := ∅; ticks := 0 |}.

Definition start_req : OTPStartRequest.t :=
  {| OTPStartRequest.phone := "9999999999";
     OTPStartRequest.purpose := "franchise" |}.

Definition verify_req (code : string) : OTPVerifyRequest.t :=
  {| OTPVerifyRequest.phone := "9999999999";
     OTPVerifyRequest.purpose := "franchise";
     OTPVerifyRequest.code := code |}.

(** The world after one [start_otp], and after two. *)
Definition w1 : World := (start_otp clock start_req w0).2.
Definition w2 : World := (start_otp clock start_req w1).2.

(** The record the first [start_otp] left in the ledger. *)
Definition rec1 : doc :=
  otp_record 0 1000000 "9999999999" "franchise" "123456" 600000000.

(** [w1] with the clock read often enough for [rec1] to have expired. *)
Definition w1_late : World := set_ticks 700 w1.

Definition payload (otp_code : option string) : FranchisePayload.t :=
  {| FranchisePayload.full_name := "Asha Rao";
     FranchisePayload.email := "asha@example.com";
     FranchisePayload.phone := "9999999999";
     FranchisePayload.investment_capacity_lakhs := 50%float;
     FranchisePayload.preferred_cities := "Pune, Mysuru";
     FranchisePayload.city_tier := "Tier 2";
     FranchisePayload.message := None;
     FranchisePayload.otp_code := otp_code |}.

(** A body the request model accepts although it breaks every field
    constraint of the storage schema: a three-character phone, a negative
    investment, a tier outside the enumeration. *)
Definition out_of_range_payload : FranchisePayload.t :=
  {| FranchisePayload.full_name := "Asha Rao";
     FranchisePayload.email := "asha@example.com";
     FranchisePayload.phone := "123";
     FranchisePayload.investment_capacity_lakhs := (-5)%float;
     FranchisePayload.preferred_cities := "Pune";
     FranchisePayload.city_tier := "Tier 3";
     FranchisePayload.message := None;
     FranchisePayload.otp_code := None |}.




(** A mall OTP for the same phone, and the world after it was started on
    the empty store. *)
Definition mall_start_req : OTPStartRequest.t :=
  {| OTPStartRequest.phone := "9999999999";
     OTPStartRequest.purpose := "mall" |}.




Definition floorplan : UploadFile.t :=
  {| UploadFile.filename := "plan.png";
     UploadFile.content := [x89; x50; x4e; x47]%byte |}.

End Demo.

(* ===================================================================== *)
(** * The diagnostic endpoint ([src/main.py]) *)
(* ===================================================================== *)

(** The response dictionary of [test_database]: its six keys are fixed
    when it is created and only assigned afterwards. *)
Module Diagnostics.
Record t := {
  backend : string;
  database : string;
  database_url : option string;
  database_name : option string;
  connection_status : string;
  collections : list string
}.

Definition set_database (s : string) (r : t) : t :=
  {| backend := backend r; database := s; database_url := database_url r;
     database_name := database_name r;
     connection_status := connection_status r;
     collections := collections r |}.

Definition set_database_url (s : string) (r : t) : t :=
  {| backend := backend r; database := database r; database_url := Some s;
     database_name := database_name r;
     connection_status := connection_status r;
     collections := collections r |}.

Definition set_database_name (s : string) (r : t) : t :=
  {| backend := backend r; database := database r;
     database_url := database_url r; database_name := Some s;
     connection_status := connection_status r;
     collections := collections r |}.

Definition set_connection_status (s : string) (r : t) : t :=
  {| backend := backend r; database := database r;
     database_url := database_url r; database_name := database_name r;
     connection_status := s; collections := collections r |}.

Definition set_collections (l : list string) (r : t) : t :=
  {| backend := backend r; database := database r;
     database_url := database_url r; database_name := database_name r;
     connection_status := connection_status r; collections := l |}.
End Diagnostics.

Section TestDatabase.

(** [os.getenv]: the environment of the process. *)
Variable getenv : string -> option string.

(** [db.list_collection_names()]: the names the driver returns, or the
    text [str(e)] of the exception it raises. *)
Variable list_collection_names : Database -> string + list string.

(** [GET /test]. *)
Definition test_database (w : World) : Diagnostics.t :=
  let response :=
    {| Diagnostics.backend := "✅ Running";
       Diagnostics.database := "❌ Not Available";
       Diagnostics.database_url := None;
       Diagnostics.database_name := None;
       Diagnostics.connection_status := "Not Connected";
       Diagnostics.collections := [] |} in
  match db w with
  | Some d =>
      let response := Diagnostics.set_database "✅ Available" response in
      let response :=
        Diagnostics.set_database_url
          (if truthy (of_optional_str (getenv "DATABASE_URL"))
           then "✅ Set" else "❌ Not Set") response in
      let response :=
        Diagnostics.set_database_name
          (match getenv "DATABASE_NAME" with
           | Some s => if truthy (VStr s) then s else "❌ Not Set"
           | None => "❌ Not Set"
           end) response in
      match list_collection_names d with
      | inr collections =>
          let response :=
            Diagnostics.set_collections (take 10 collections) response in
          let response :=
            Diagnostics.set_database "✅ Connected & Working" response in
          Diagnostics.set_connection_status "Connected" response
      | inl e =>
          Diagnostics.set_database
            ("⚠️ Connected but Error: " +:+ String.substring 0 80 e) response
      end
  | None =>
      Diagnostics.set_database "⚠️ Available but not initialized" response
  end.

End TestDatabase.

(* ===================================================================== *)
(** * The OTP record schema ([src/schemas.py]) *)
(* ===================================================================== *)

Module OTPRequest.
(** A stored document has the shape of the [OTPRequest] model:
    [phone: min_length=10, max_length=15]; [code: min_length=4,
    max_length=8]; [purpose: Literal["franchise", "mall"]];
    [verified: bool], optional; [expires_at: datetime], required.  Fields
    the model does not declare are ignored. *)
Definition validates (d : doc) : bool :=
  match d !! "phone", d !! "code", d !! "purpose", d !! "expires_at" with
  | Some (VStr phone), Some (VStr code), Some (VStr purpose),
    Some (VTime _) =>
      (10 <=? String.length phone)%nat && (String.length phone <=? 15)%nat
      && (4 <=? String.length code)%nat && (String.length code <=? 8)%nat
      && (String.eqb purpose "franchise" || String.eqb purpose "mall")
      && match d !! "verified" with
         | None | Some (VBool _) => true
         | Some _ => false
         end
  | _, _, _, _ => false
  end.
End OTPRequest.

(** Every record of the ledger has the shape of the [OTPRequest] model. *)
Definition ledger_ok (w : World) : Prop :=
  match db w with
  | Some d =>
      Forall (fun x => OTPRequest.validates x = true)
        (collection "otprequest" d)
  | None => True
  end.

(** The body of a request passed the validation of its request model
    (only [OTPStartRequest] declares constraints). *)
Definition request_valid (r : request) : bool :=
  match r with
  | PostOtpStart req => OTPStartRequest.valid req
  | _ => true
  end.

(** The fields of a [datetime] are within their ranges. *)
Definition DateTime_valid (t : DateTime) : Prop :=
  Z.of_nat (year t) <= 9999
  /\ (month t <= 12 /\ day t <= 31
      /\ hour t <= 23 /\ minute t <= 59 /\ second t <= 59)%nat.


(** The identifiers of a collection, in insertion order. *)
Definition oids (name : string) (d : Database) : list (option N) :=
  oid_of <$> collection name d.

(** Store [d'] holds everything store [d] held: the identifier counter
    has not gone back, every collection still carries the identifiers it
    carried, in order, possibly followed by new ones, and outside the OTP
    ledger the documents themselves are the ones that were there. *)
Definition grows (d d' : Database) : Prop :=
  (next_oid d <= next_oid d')%N
  /\ forall name,
       oids name d `prefix_of` oids name d'
       /\ (name <> "otprequest" ->
           collection name d `prefix_of` collection name d').

(** The same between worlds; a world without a store stays without, and
    one with a store keeps it. *)
Definition world_grows (w w' : World) : Prop :=
  match db w, db w' with
  | Some d, Some d' => grows d d'
  | None, None => True
  | _, _ => False
  end.

(* ===================================================================== *)
(** * Facts about the model *)
(* ===================================================================== *)

Ltac run :=
  unfold mbind, M_bind, mret, M_ret, raise, get_db, put_db,
    datetime_now_utc, datetime_now, tick, write_file; simpl.

(** ** The store: querying, sorting and updating *)

Section StoreFacts.

Implicit Types (c : list doc) (d rec : doc) (flt : list (string * value)).

Lemma key_leb_refl a : key_leb a a = true.
Proof. destruct a; simpl; [apply Z.leb_refl | done]. Qed.

Lemma key_leb_trans a b k :
  key_leb a b = true -> key_leb b k = true -> key_leb a k = true.
Proof.
  destruct a, b, k; simpl; try done.
  rewrite !Z.leb_le. lia.
Qed.

Lemma key_leb_total a b : key_leb a b = false -> key_leb b a = true.
Proof.
  destruct a, b; simpl; try done.
  rewrite Z.leb_gt, Z.leb_le. lia.
Qed.

Lemma elem_of_find flt c d :
  d ∈ find flt c <-> d ∈ c /\ matches flt d = true.
Proof.
  unfold find. rewrite !list_elem_of_In, filter_In. tauto.
Qed.

Lemma find_app flt c1 c2 :
  find flt (c1 ++ c2)%list = (find flt c1 ++ find flt c2)%list.
Proof. unfold find. induction c1 as [|x c1 IH]; simpl; [done|]. destruct (matches flt x); simpl; by rewrite IH. Qed.


Lemma elem_of_insert_desc f d x l :
  x ∈ insert_desc f d l <-> x = d \/ x ∈ l.
Proof.
  induction l as [|y l IH]; simpl.
  - rewrite list_elem_of_singleton, elem_of_nil. tauto.
  - destruct (key_leb _ _).
    + rewrite !elem_of_cons. tauto.
    + rewrite !elem_of_cons, IH. tauto.
Qed.

Lemma elem_of_sort_desc f c x : x ∈ sort_desc f c <-> x ∈ c.
Proof.
  unfold sort_desc. induction c as [|y c IH]; simpl; [done|].
  rewrite elem_of_insert_desc, IH, elem_of_cons. tauto.
Qed.

(** The head of a sorted cursor carries a greatest key. *)
Lemma sort_desc_head f c x r :
  sort_desc f c = x :: r ->
  forall y, y ∈ c -> key_leb (sort_key f y) (sort_key f x) = true.
Proof.
  unfold sort_desc. revert x r.
  induction c as [|a c IH]; intros x r E y Hy; [by apply elem_of_nil in Hy|].
  simpl in E.
  destruct (foldr (insert_desc f) [] c) as [|h t] eqn:Es.
  - assert (c = []) as ->.
    { destruct c as [|b c']; [done|].
      assert (b ∈ sort_desc f (b :: c')) as Hb
        by (apply elem_of_sort_desc; left).
      unfold sort_desc in Hb. rewrite Es in Hb. by apply elem_of_nil in Hb. }
    simpl in E. injection E as <- <-.
    apply list_elem_of_singleton in Hy as ->. apply key_leb_refl.
  - simpl in E.
    destruct (key_leb (sort_key f h) (sort_key f a)) eqn:Hle.
    + injection E as <- <-.
      apply elem_of_cons in Hy as [->|Hy]; [apply key_leb_refl|].
      eapply key_leb_trans; [|exact Hle]. by eapply IH.
    + injection E as <- <-.
      apply elem_of_cons in Hy as [->|Hy]; [by apply key_leb_total|].
      by eapply IH.
Qed.



End StoreFacts.

(** ** The OTP ledger *)

Section LedgerFacts.

Variable clock : nat -> Instant.
Implicit Types (req : OTPVerifyRequest.t) (w : World) (rec : doc).

Lemma value_eqb_str v s : value_eqb v (VStr s) = true <-> v = VStr s.
Proof.
  destruct v; simpl; try (split; [done|discriminate]).
  rewrite String.eqb_eq. split; [by intros ->|by intros [= ->]].
Qed.

Lemma code_matches_iff rec s :
  value_eqb (dict_get rec "code") (VStr s) = true
  <-> rec !! "code" = Some (VStr s).
Proof.
  rewrite value_eqb_str. unfold dict_get.
  destruct (rec !! "code") as [v|]; simpl; split; congruence.
Qed.


Lemma latest_otp_cons phone purpose o rec rest :
  latest_otp phone purpose o = rec :: rest ->
  rest = [] /\ exists dbs, o = Some dbs /\ newest_otp phone purpose dbs rec.
Proof.
  unfold latest_otp, limit. destruct o as [dbs|]; [|done].
    destruct (sort_desc "created_at" _) as [|x r] eqn:E; simpl; [done|].
  rewrite take_0. intros [= <- <-]. split; [done|].
  exists dbs. split; [done|].
  assert (x ∈ sort_desc "created_at"
            (find (otp_filter phone purpose)
               (collection "otprequest" dbs))) as Hx
    by (rewrite E; left).
  apply elem_of_sort_desc, elem_of_find in Hx as [Hx Hm].
  repeat split; [done..|].
  intros d Hd Hdm. eapply sort_desc_head; [exact E|].
  by apply elem_of_find.
Qed.

End LedgerFacts.

(* ===================================================================== *)
(** * Verification failures *)
(* ===================================================================== *)

Lemma demo_w1_ledger :
  db Demo.w1
  = Some {| collections := {["otprequest" := [Demo.rec1]]}; next_oid := 1 |}.
Proof. vm_compute. reflexivity. Qed.



(** A failing [verify_otp] leaves the world as it was, except that the
    clock may have been read once. *)
Lemma verify_otp_raise_world (clock : nat -> Instant)
    (req : OTPVerifyRequest.t) (w w' : World) (e : exn) :
  verify_otp clock req w = (Raise e, w') ->
  w' = w \/ w' = set_ticks (S (ticks w)) w.
Proof.
  unfold verify_otp. run.
  destruct (latest_otp _ _ (db w)) as [|rec rest] eqn:El.
  { intros [= <- <-]. by left. }
  destruct (negb _).
  { intros [= <- <-]. by left. }
  destruct (db w) as [dbs|] eqn:Hdb; [|done].
  destruct (truthy (dict_get rec "expires_at")); run.
  - unfold dict_getitem.
    destruct (rec !! "expires_at") as [v|]; run;
      [|intros [= <- <-]; by right].
    destruct v; run; try (intros [= <- <-]; by right).
    destruct (t <? _); run; [intros [= <- <-]; by right|].
    destruct (rec !! "_id"); run; [done|].
    intros [= <- <-]; by right.
  - unfold dict_getitem. destruct (rec !! "_id"); run; [done|].
    intros [= <- <-]; by left.
Qed.

(** C6. When [verify_otp] fails with [NotFound], [InvalidCode] or
    [Expired], the store is exactly as it was before the call: every
    collection, and so every OTP record with its [verified] flag and
    [updated_at], is unchanged; so are the files on disk. *)
Theorem verify_otp_failure_no_mutation (clock : nat -> Instant)
    (req : OTPVerifyRequest.t) (w w' : World) (e : exn) :
  verify_otp clock req w = (Raise e, w') ->
  e = NotFound \/ e = InvalidCode \/ e = Expired ->
  db w' = db w /\ files w' = files w.
Proof.
  intros H _. by destruct (verify_otp_raise_world _ _ _ _ _ H) as [->| ->].
Qed.

(** C6 on a wrong code and on an expired record. *)
Lemma verify_otp_failure_no_mutation_witness :
  (db Demo.w1_late = db Demo.w1_late /\ files Demo.w1_late = files Demo.w1_late)
  /\ (db (set_ticks 701 Demo.w1_late) = db Demo.w1_late
      /\ files (set_ticks 701 Demo.w1_late) = files Demo.w1_late).
Proof.
  split.
  - apply (verify_otp_failure_no_mutation Demo.clock
             (Demo.verify_req "000000") Demo.w1_late Demo.w1_late InvalidCode).
    + vm_compute. reflexivity.
    + right. left. reflexivity.
  - apply (verify_otp_failure_no_mutation Demo.clock
             (Demo.verify_req "123456") Demo.w1_late
             (set_ticks 701 Demo.w1_late) Expired).
    + vm_compute. reflexivity.
    + right. right. reflexivity.
Defined.

(* ===================================================================== *)
(** * The OTP gate of the submission handlers *)
(* ===================================================================== *)



Lemma otp_gate_raise (clock : nat -> Instant) (phone purpose c : string)
    (w w' : World) (e : exn) :
  c <> "" ->
  verify_otp clock
    {| OTPVerifyRequest.phone := phone;
       OTPVerifyRequest.purpose := purpose;
       OTPVerifyRequest.code := c |} w = (Raise e, w') ->
  otp_gate clock phone purpose (Some c) w = (Raise e, w').
Proof.
  intros Hc H. unfold otp_gate, truthy.
  apply String.eqb_neq in Hc. rewrite Hc. simpl.
  unfold try_except_HTTPException. run. rewrite H. by destruct e.
Qed.

(** C2. A franchise submission that carries an [otp_code] whose inline
    verification fails with [NotFound], [InvalidCode] or [Expired] fails
    as a whole: the handler raises that same error, a client error, and
    the store is left as it was, so no [franchiseinquiry] document is
    created. *)
Theorem submit_franchise_otp_failure (clock : nat -> Instant)
    (payload : FranchisePayload.t) (c : string) (w w' : World) (e : exn) :
  FranchisePayload.otp_code payload = Some c ->
  c <> "" ->
  verify_otp clock
    {| OTPVerifyRequest.phone := FranchisePayload.phone payload;
       OTPVerifyRequest.purpose := "franchise";
       OTPVerifyRequest.code := c |} w = (Raise e, w') ->
  e = NotFound \/ e = InvalidCode \/ e = Expired ->
  submit_franchise clock payload w = (Raise e, w')
  /\ is_client_error e = true
  /\ db w' = db w.
Proof.
  intros Hotp Hc Hv He. split; [|split].
  - unfold submit_franchise. rewrite Hotp.
    unfold mbind at 1, M_bind at 1.
    by rewrite (otp_gate_raise _ _ _ _ _ _ _ Hc Hv).
  - by destruct He as [->|[->| ->]].
  - by destruct (verify_otp_raise_world _ _ _ _ _ Hv) as [->| ->].
Qed.

(** C2 with a wrong code against the ledger left by one [start_otp]. *)
Lemma submit_franchise_otp_failure_witness :
  submit_franchise Demo.clock (Demo.payload (Some "000000")) Demo.w1
  = (Raise InvalidCode, Demo.w1)
  /\ is_client_error InvalidCode = true
  /\ db Demo.w1 = db Demo.w1.
Proof.
  apply (submit_franchise_otp_failure Demo.clock
           (Demo.payload (Some "000000")) "000000" Demo.w1 Demo.w1
           InvalidCode).
  - reflexivity.
  - discriminate.
  - vm_compute. reflexivity.
  - right. left. reflexivity.
Defined.

(* ===================================================================== *)
(** * Successful runs *)
(* ===================================================================== *)

Lemma collection_insert_one_same (name : string) (data : doc)
    (dbs : Database) :
  collection name (insert_one name data dbs).2
  = (collection name dbs ++ [<["_id" := VOid (next_oid dbs)]> data])%list.
Proof. unfold collection at 1, insert_one. simpl. by rewrite lookup_insert_eq. Qed.

Lemma collection_insert_one_other (name name' : string) (data : doc)
    (dbs : Database) :
  name <> name' ->
  collection name' (insert_one name data dbs).2 = collection name' dbs.
Proof.
  intros Hne. unfold collection, insert_one. simpl.
  by rewrite lookup_insert_ne.
Qed.

Lemma collection_set_collection_same (name : string) (c : list doc)
    (d : Database) :
  collection name (set_collection name c d) = c.
Proof. unfold collection, set_collection. simpl. by rewrite lookup_insert_eq. Qed.

Lemma collection_set_collection_other (name name' : string) (c : list doc)
    (d : Database) :
  name <> name' ->
  collection name' (set_collection name c d) = collection name' d.
Proof.
  intros Hne. unfold collection, set_collection. simpl.
  by rewrite lookup_insert_ne.
Qed.

Lemma create_document_connected (clock : nat -> Instant) (name : string)
    (data : doc) (w : World) (dbs : Database) :
  db w = Some dbs ->
  create_document clock name data w
  = (Ok (str_oid (next_oid dbs)),
     {| db := Some (insert_one name
                      (<["created_at" := VTime (utc (clock (ticks w)))]> data)
                      dbs).2;
        files := files w;
        ticks := S (ticks w) |}).
Proof. intros Hdb. unfold create_document. run. by rewrite Hdb. Qed.

Lemma create_document_down (clock : nat -> Instant) (name : string)
    (data : doc) (w : World) :
  db w = None ->
  create_document clock name data w = (Raise StoreUnavailable, w).
Proof. intros Hdb. unfold create_document. run. by rewrite Hdb. Qed.

Lemma start_otp_connected (clock : nat -> Instant) (req : OTPStartRequest.t)
    (w : World) (dbs : Database) :
  db w = Some dbs ->
  start_otp clock req w = (Ok start_response, after_start_otp clock req dbs w).
Proof.
  intros Hdb. unfold start_otp, create_document. run. by rewrite Hdb.
Qed.








Lemma otp_record_code (oid : N) (t e : Z) (phone purpose code : string) :
  otp_record oid t phone purpose code e !! "code" = Some (VStr code).
Proof. reflexivity. Qed.

Lemma otp_record_expires_at (oid : N) (t e : Z) (phone purpose code : string) :
  otp_record oid t phone purpose code e !! "expires_at" = Some (VTime e).
Proof. reflexivity. Qed.



(* ===================================================================== *)
(** * Issued codes and their verification *)
(* ===================================================================== *)



(** The scenario of the specification: [start_otp] for 9999999999 and
    franchise returns the code 123456; [verify_otp] with it succeeds; a
    second [verify_otp] with 000000 fails with [InvalidCode]. *)
Example scenario_start_verify_verify :
  (start_otp Demo.clock Demo.start_req Demo.w0).1 = Ok start_response
  /\ start_response !! "demo_code" = Some (VStr "123456")
  /\ (verify_otp Demo.clock (Demo.verify_req "123456") Demo.w1).1
     = Ok success_response
  /\ (verify_otp Demo.clock (Demo.verify_req "000000")
        (verify_otp Demo.clock (Demo.verify_req "123456") Demo.w1).2).1
     = Raise InvalidCode.
Proof. repeat split; vm_compute; reflexivity. Qed.




(* ===================================================================== *)
(** * Repeated verification *)
(* ===================================================================== *)

Lemma oid_of_insert_id (n : N) (data : doc) :
  oid_of (<["_id" := VOid n]> data) = Some n.
Proof. unfold oid_of. by rewrite lookup_insert_eq. Qed.

Lemma oid_of_Some (d : doc) (n : N) :
  oid_of d = Some n -> d !! "_id" = Some (VOid n).
Proof.
  unfold oid_of. destruct (d !! "_id") as [[]|]; try done. congruence.
Qed.

Section MarkVerified.

Variable now : Z.
Implicit Types (d : doc) (c : list doc).

Lemma mark_verified_lookup_ne d (k : string) :
  k <> "verified" -> k <> "updated_at" ->
  mark_verified now d !! k = d !! k.
Proof.
  intros H1 H2. unfold mark_verified, apply_set. simpl.
  by rewrite !lookup_insert_ne.
Qed.

Lemma mark_verified_verified d :
  mark_verified now d !! "verified" = Some (VBool true).
Proof.
  unfold mark_verified, apply_set. simpl.
  rewrite lookup_insert_ne by done. by rewrite lookup_insert_eq.
Qed.



Lemma oid_of_mark_verified d : oid_of (mark_verified now d) = oid_of d.
Proof. unfold oid_of. by rewrite mark_verified_lookup_ne. Qed.

Lemma matches_id_iff (n : N) d :
  matches [("_id", VOid n)] d = true <-> oid_of d = Some n.
Proof.
  unfold matches, oid_of. simpl. rewrite andb_true_r.
  destruct (d !! "_id") as [[]|]; simpl; try (split; [done|discriminate]).
  rewrite N.eqb_eq. split; congruence.
Qed.

Lemma update_one_unique (n : N) c :
  unique_ids c ->
  update_one [("_id", VOid n)]
    [("verified", VBool true); ("updated_at", VTime now)] c
  = mark_by_id now n <$> c.
Proof.
  unfold unique_ids. induction c as [|d c IH]; [done|].
  rewrite fmap_cons. intros [Hd Hc]%NoDup_cons.
  cbn [update_one fmap list_fmap]. unfold mark_by_id at 1.
  destruct (matches [("_id", VOid n)] d) eqn:Hm.
  - fold (mark_verified now d). f_equal.
    apply matches_id_iff in Hm.
    clear IH Hc. induction c as [|x c IH]; [done|].
    rewrite fmap_cons in Hd. apply not_elem_of_cons in Hd as [Hx Hd].
    cbn [fmap list_fmap]. rewrite <- IH by done. f_equal.
    unfold mark_by_id.
    destruct (matches [("_id", VOid n)] x) eqn:Hmx; [|done].
    apply matches_id_iff in Hmx. congruence.
  - f_equal. by apply IH.
Qed.

Lemma oid_of_mark_by_id (n : N) d : oid_of (mark_by_id now n d) = oid_of d.
Proof.
  unfold mark_by_id. destruct (matches _ d); [|done].
  apply oid_of_mark_verified.
Qed.


End MarkVerified.

Section Idempotence.

Variable clock : nat -> Instant.
Variables phone purpose code : string.
Variable e : Z.
Variable oid : N.

Notation req := (OTPVerifyRequest.Build_t phone purpose code).



End Idempotence.



(* ===================================================================== *)
(** * Submissions *)
(* ===================================================================== *)

Lemma os_path_join_digit (n : nat) (s : string) :
  os_path_join (os_path_join "public" "uploads") (String (digit n) s)
  = upload_path (String (digit n) s).
Proof.
  unfold digit.
  destruct (n mod 10)%nat as [|[|[|[|[|[|[|[|[|?]]]]]]]]]; reflexivity.
Qed.

(** The upload lands directly under [public/uploads]. *)
Lemma upload_path_join (t : DateTime) (original : string) :
  os_path_join (os_path_join "public" "uploads") (stored_filename t original)
  = upload_path (stored_filename t original).
Proof.
  unfold stored_filename, strftime_YmdHMS, pad4. cbn [String.append].
  apply os_path_join_digit.
Qed.

(** The timestamp in front of a stored name is fourteen characters long. *)
Lemma strftime_YmdHMS_length (t : DateTime) :
  String.length (strftime_YmdHMS t) = 14%nat.
Proof. reflexivity. Qed.

Lemma save_floorplan_some (clock : nat -> Instant) (f : UploadFile.t)
    (w : World) :
  let filename :=
    stored_filename (local (clock (ticks w))) (UploadFile.filename f) in
  save_floorplan clock (Some f) w
  = (Ok (file_meta_of filename (UploadFile.content f)),
     after_upload (upload_path filename) (UploadFile.content f) w).
Proof.
  intros filename.
  pose proof (upload_path_join (local (clock (ticks w)))
                (UploadFile.filename f)) as Hpath.
  unfold save_floorplan, mbind, M_bind, datetime_now, tick, write_file,
    mret, M_ret.
  cbn beta iota zeta. unfold mbind, M_bind. cbn beta iota zeta.
  subst filename. unfold stored_filename in *. rewrite Hpath. reflexivity.
Qed.

Lemma save_floorplan_none (clock : nat -> Instant) (w : World) :
  save_floorplan clock None w = (Ok VNull, w).
Proof. reflexivity. Qed.





(** ** The store invariant *)

Lemma store_ok_insert_one (name : string) (data : doc) (d : Database) :
  store_ok d -> store_ok (insert_one name data d).2.
Proof.
  intros H name'. destruct (H name') as [Hb Hu].
  assert (Forall (fun x => exists n, oid_of x = Some n
                             /\ (n < next_oid (insert_one name data d).2)%N)
            (collection name' d)) as Hb'.
  { eapply Forall_impl; [exact Hb|]. intros x (n & Hn & Hlt).
    exists n. split; [done|]. simpl. lia. }
  destruct (decide (name = name')) as [<-|Hne].
  - rewrite collection_insert_one_same. split.
    + apply Forall_app. split; [exact Hb'|].
      apply Forall_singleton. exists (next_oid d).
      split; [apply oid_of_insert_id|simpl; lia].
    + unfold unique_ids. rewrite fmap_app. apply NoDup_app.
      split; [exact Hu|]. split; [|apply NoDup_singleton].
      intros x Hx Hx'. apply list_elem_of_singleton in Hx'. subst x.
      rewrite oid_of_insert_id in Hx.
      apply list_elem_of_fmap in Hx as (y & Hy & Hin).
      rewrite Forall_forall in Hb. destruct (Hb y Hin) as (n & Hn & Hlt).
      rewrite Hn in Hy. injection Hy as Hy. lia.
  - rewrite collection_insert_one_other by done. by split.
Qed.

Lemma store_ok_mark (now : Z) (n : N) (d : Database) :
  store_ok d ->
  store_ok (set_collection "otprequest"
              (mark_by_id now n <$> collection "otprequest" d) d).
Proof.
  intros H name. destruct (decide (name = "otprequest")) as [->|Hne].
  - destruct (H "otprequest") as [Hb Hu].
    rewrite collection_set_collection_same. split.
    + apply Forall_fmap. eapply Forall_impl; [exact Hb|].
      intros x Hx. simpl. by rewrite oid_of_mark_by_id.
    + unfold unique_ids in *. rewrite <- list_fmap_compose.
      erewrite list_fmap_ext; [exact Hu|].
      intros i x _. simpl. apply oid_of_mark_by_id.
  - destruct (H name) as [Hb Hu].
    rewrite collection_set_collection_other by done. by split.
Qed.

Lemma store_ok_empty (n : N) : store_ok {| collections := ∅; next_oid := n |}.
Proof.
  intros name. unfold collection, unique_ids. simpl. rewrite lookup_empty.
  simpl. split; [apply Forall_nil_2|apply NoDup_nil_2].
Qed.

Section Invariant.

Variable clock : nat -> Instant.

Lemma create_document_world_ok (name : string) (data : doc) (w : World) :
  world_ok w -> world_ok (create_document clock name data w).2.
Proof.
  unfold world_ok. destruct (db w) as [dbs|] eqn:Hdb; intros H.
  - rewrite (create_document_connected _ _ _ _ _ Hdb). simpl.
    by apply store_ok_insert_one.
  - rewrite (create_document_down _ _ _ _ Hdb). simpl. by rewrite Hdb.
Qed.

Lemma start_otp_world_ok (req : OTPStartRequest.t) (w : World) :
  world_ok w -> world_ok (start_otp clock req w).2.
Proof.
  intros H. unfold start_otp.
  unfold mbind at 1, M_bind at 1, datetime_now_utc. run.
  set (w1 := set_ticks (S (ticks w)) w).
  set (data := <["phone" := _]> _).
  assert (world_ok w1) as H1 by exact H.
  pose proof (create_document_world_ok "otprequest" data w1 H1) as H2.
  by destruct (create_document clock "otprequest" data w1) as [[]].
Qed.

(** What a successful [verify_otp] leaves in the store. *)
Lemma verify_otp_ok_world (req : OTPVerifyRequest.t) (w w' : World)
    (r : doc) :
  verify_otp clock req w = (Ok r, w') ->
  exists dbs rec oid now,
    db w = Some dbs
    /\ rec ∈ collection "otprequest" dbs
    /\ rec !! "_id" = Some oid
    /\ db w'
       = Some (set_collection "otprequest"
                 (update_one [("_id", oid)]
                    [("verified", VBool true); ("updated_at", VTime now)]
                    (collection "otprequest" dbs))
                 dbs).
Proof.
  unfold verify_otp. run.
  destruct (latest_otp _ _ (db w)) as [|rec rest] eqn:El; [done|].
  destruct (latest_otp_cons _ _ _ _ _ El) as (_ & dbs & Hdb & Hin & _).
  destruct (negb _); [done|]. rewrite Hdb.
  destruct (truthy (dict_get rec "expires_at")); run.
  - unfold dict_getitem.
    destruct (rec !! "expires_at") as [v|]; run; [|done].
    destruct v; run; try done.
    destruct (t <? _); run; [done|].
    destruct (rec !! "_id") as [oid|] eqn:Hid; run; [|done].
    intros [= <- <-]. by eexists dbs, rec, oid, _.
  - unfold dict_getitem.
    destruct (rec !! "_id") as [oid|] eqn:Hid; run; [|done].
    intros [= <- <-]. by eexists dbs, rec, oid, _.
Qed.

Lemma verify_otp_world_ok (req : OTPVerifyRequest.t) (w : World) :
  world_ok w -> world_ok (verify_otp clock req w).2.
Proof.
  intros H. destruct (verify_otp clock req w) as [[r|e] w'] eqn:Hrun; simpl.
  - destruct (verify_otp_ok_world _ _ _ _ Hrun)
      as (dbs & rec & oid & now & Hdb & Hin & Hid & Hdb').
    unfold world_ok in *. rewrite Hdb in H. rewrite Hdb'.
    destruct (H "otprequest") as [Hb Hu].
    rewrite Forall_forall in Hb. destruct (Hb rec Hin) as (n & Hn & _).
    apply oid_of_Some in Hn. rewrite Hn in Hid. injection Hid as <-.
    rewrite update_one_unique by done. by apply store_ok_mark.
  - by destruct (verify_otp_raise_world _ _ _ _ _ Hrun) as [->| ->].
Qed.

Lemma otp_gate_world_ok (phone purpose : string) (otp_code : option string)
    (w : World) :
  world_ok w -> world_ok (otp_gate clock phone purpose otp_code w).2.
Proof.
  intros H. unfold otp_gate. destruct otp_code as [c|]; [|done].
  destruct (truthy (VStr c)); [|done].
  unfold try_except_HTTPException, mbind, M_bind.
  set (req := {| OTPVerifyRequest.phone := phone |}).
  pose proof (verify_otp_world_ok req w H) as H'.
  destruct (verify_otp clock req w) as [[r|e] w']; [done|]. by destruct e.
Qed.

Lemma save_floorplan_world_ok (floorplan : option UploadFile.t) (w : World) :
  world_ok w -> world_ok (save_floorplan clock floorplan w).2.
Proof.
  intros H. destruct floorplan as [f|].
  - by rewrite save_floorplan_some.
  - by rewrite save_floorplan_none.
Qed.

Lemma handle_world_ok (r : request) (w : World) :
  world_ok w -> world_ok (handle clock r w).2.
Proof.
  intros H. destruct r; simpl.
  - by apply start_otp_world_ok.
  - by apply verify_otp_world_ok.
  - unfold submit_franchise. unfold mbind at 1, M_bind at 1.
    pose proof (otp_gate_world_ok (FranchisePayload.phone payload) "franchise"
                  (FranchisePayload.otp_code payload) w H) as H1.
    destruct (otp_gate clock _ _ _ w) as [[[]|e] w1]; [|done].
    unfold mbind, M_bind.
    pose proof (create_document_world_ok "franchiseinquiry"
                  (FranchisePayload.model_dump payload) w1 H1) as H2.
    by destruct (create_document clock _ _ w1) as [[]].
  - unfold submit_mall. unfold mbind at 1, M_bind at 1.
    pose proof (otp_gate_world_ok phone "mall" otp_code w H) as H1.
    destruct (otp_gate clock _ _ _ w) as [[[]|e] w1]; [|done].
    unfold mbind at 1, M_bind at 1.
    pose proof (save_floorplan_world_ok floorplan w1 H1) as H2.
    destruct (save_floorplan clock floorplan w1) as [[m|e] w2]; [|done].
    unfold mbind, M_bind.
    pose proof (create_document_world_ok "mallinquiry"
                  (mall_data contact_name email phone mall_name location_city
                     available_space_sqft message m) w2 H2) as H3.
    by destruct (create_document clock _ _ w2) as [[]].
Qed.

(** Every world the application reaches from a world that satisfies the
    store invariant satisfies it. *)
Lemma serve_world_ok (rs : list request) (w : World) :
  world_ok w -> world_ok (serve clock rs w).
Proof.
  unfold serve. revert w. induction rs as [|r rs IH]; intros w H; [done|].
  simpl. apply IH. by apply handle_world_ok.
Qed.

End Invariant.








(** C3, at a failing input.  The handler takes a body that breaks every
    range and enumeration constraint of the [FranchiseInquiry] schema: it
    succeeds and the body is persisted as received. *)
Theorem submit_franchise_accepts_out_of_range :
  FranchiseInquiry.phone_ok
    (FranchisePayload.phone Demo.out_of_range_payload) = false
  /\ FranchiseInquiry.investment_capacity_lakhs_ok
       (FranchisePayload.investment_capacity_lakhs Demo.out_of_range_payload)
     = false
  /\ FranchiseInquiry.city_tier_ok
       (FranchisePayload.city_tier Demo.out_of_range_payload) = false
  /\ FranchiseInquiry.constraints Demo.out_of_range_payload = false
  /\ exists dbs',
       submit_franchise Demo.clock Demo.out_of_range_payload Demo.w0
       = (Ok (franchise_response (str_oid 0)),
          {| db := Some dbs'; files := ∅; ticks := 1 |})
       /\ collection "franchiseinquiry" dbs'
          = [stored_document Demo.clock 0 0
               (FranchisePayload.model_dump Demo.out_of_range_payload)].
Proof.
  repeat split; try reflexivity.
  eexists. split; vm_compute; reflexivity.
Qed.

(* ===================================================================== *)
(** * Further properties of the handlers *)
(* ===================================================================== *)

(** ** What a successful verification changes *)

Lemma verify_otp_ok_inv (clock : nat -> Instant) (req : OTPVerifyRequest.t)
    (w w' : World) (r : doc) :
  verify_otp clock req w = (Ok r, w') ->
  r = success_response
  /\ files w' = files w
  /\ exists dbs rec oid now,
       db w = Some dbs
       /\ newest_otp (OTPVerifyRequest.phone req)
            (OTPVerifyRequest.purpose req) dbs rec
       /\ rec !! "code" = Some (VStr (OTPVerifyRequest.code req))
       /\ rec !! "_id" = Some oid
       /\ db w'
          = Some (set_collection "otprequest"
                    (update_one [("_id", oid)]
                       [("verified", VBool true); ("updated_at", VTime now)]
                       (collection "otprequest" dbs))
                    dbs).
Proof.
  unfold verify_otp. run.
  destruct (latest_otp _ _ (db w)) as [|rec rest] eqn:El; [done|].
  destruct (latest_otp_cons _ _ _ _ _ El) as (_ & dbs & Hdb & Hnew).
  destruct (value_eqb (dict_get rec "code") _) eqn:Hc; simpl; [|done].
  apply code_matches_iff in Hc. rewrite Hdb.
  destruct (truthy (dict_get rec "expires_at")); run.
  - unfold dict_getitem.
    destruct (rec !! "expires_at") as [v|]; run; [|done].
    destruct v; run; try done.
    destruct (t <? _); run; [done|].
    destruct (rec !! "_id") as [oid|] eqn:Hid; run; [|done].
    intros [= <- <-]. split; [done|]. split; [done|].
    by eexists dbs, rec, oid, _.
  - unfold dict_getitem.
    destruct (rec !! "_id") as [oid|] eqn:Hid; run; [|done].
    intros [= <- <-]. split; [done|]. split; [done|].
    by eexists dbs, rec, oid, _.
Qed.

Lemma mark_by_id_other (now : Z) (n : N) (d : doc) :
  oid_of d <> Some n -> mark_by_id now n d = d.
Proof.
  intros H. unfold mark_by_id.
  destruct (matches [("_id", VOid n)] d) eqn:Hm; [|done].
  by apply matches_id_iff in Hm.
Qed.

Lemma mark_by_id_same (now : Z) (n : N) (d : doc) :
  oid_of d = Some n -> mark_by_id now n d = mark_verified now d.
Proof.
  intros H. unfold mark_by_id.
  by rewrite (proj2 (matches_id_iff n d) H).
Qed.

Lemma mark_by_id_lookup_ne (now : Z) (n : N) (d : doc) (k : string) :
  k <> "verified" -> k <> "updated_at" -> mark_by_id now n d !! k = d !! k.
Proof.
  intros H1 H2. unfold mark_by_id. destruct (matches _ d); [|done].
  by apply mark_verified_lookup_ne.
Qed.

Lemma mark_verified_updated_at (now : Z) (d : doc) :
  mark_verified now d !! "updated_at" = Some (VTime now).
Proof. unfold mark_verified, apply_set. simpl. by rewrite lookup_insert_eq. Qed.

(** Two documents of a collection with unique identifiers that carry the
    same identifier are the same document. *)
Lemma unique_ids_eq (c : list doc) (d1 d2 : doc) (n : N) :
  unique_ids c -> d1 ∈ c -> d2 ∈ c ->
  oid_of d1 = Some n -> oid_of d2 = Some n -> d1 = d2.
Proof.
  intros Hu [i Hi]%list_elem_of_lookup [j Hj]%list_elem_of_lookup H1 H2.
  assert (i = j) as ->.
  { eapply NoDup_lookup; [exact Hu| |].
    - rewrite list_lookup_fmap, Hi. simpl. by rewrite H1.
    - rewrite list_lookup_fmap, Hj. simpl. by rewrite H2. }
  congruence.
Qed.

(** X2. A successful [verify_otp] answers [{success: true}] and changes
    one record only: the most recently created record of the phone and
    purpose, which held the supplied code, gets [verified = true] and an
    [updated_at]; every other field of it, every other record of the
    ledger, every other collection, the identifier counter and the files
    are as before.  No record is added or removed. *)
Theorem verify_otp_success_effect (clock : nat -> Instant)
    (req : OTPVerifyRequest.t) (w w' : World) (r : doc) :
  world_ok w ->
  verify_otp clock req w = (Ok r, w') ->
  r = success_response
  /\ files w' = files w
  /\ exists dbs dbs' rec n now,
       db w = Some dbs /\ db w' = Some dbs'
       /\ next_oid dbs' = next_oid dbs
       /\ newest_otp (OTPVerifyRequest.phone req)
            (OTPVerifyRequest.purpose req) dbs rec
       /\ rec !! "code" = Some (VStr (OTPVerifyRequest.code req))
       /\ oid_of rec = Some n
       /\ (forall name, name <> "otprequest" ->
             collection name dbs' = collection name dbs)
       /\ length (collection "otprequest" dbs')
          = length (collection "otprequest" dbs)
       /\ forall (i : nat) (d : doc),
            collection "otprequest" dbs !! i = Some d ->
            exists d',
              collection "otprequest" dbs' !! i = Some d'
              /\ (forall k, k <> "verified" -> k <> "updated_at" ->
                    d' !! k = d !! k)
              /\ (oid_of d <> Some n -> d' = d)
              /\ (oid_of d = Some n ->
                    d = rec
                    /\ d' !! "verified" = Some (VBool true)
                    /\ d' !! "updated_at" = Some (VTime now)).
Proof.
  intros Hok Hrun.
  destruct (verify_otp_ok_inv _ _ _ _ _ Hrun)
    as (-> & Hfiles & dbs & rec & oid & now & Hdb & Hnew & Hcode & Hid & Hdb').
  split; [done|]. split; [done|].
  unfold world_ok in Hok. rewrite Hdb in Hok.
  destruct (Hok "otprequest") as [Hbelow Huniq].
  rewrite Forall_forall in Hbelow.
  destruct (Hbelow rec (proj1 Hnew)) as (n & Hn & _).
  pose proof (oid_of_Some _ _ Hn) as Hid'. rewrite Hid' in Hid.
  injection Hid as <-.
  rewrite (update_one_unique now n _ Huniq) in Hdb'.
  eexists dbs, _, rec, n, now.
  split; [done|]. split; [exact Hdb'|]. split; [done|]. split; [done|].
  split; [done|]. split; [done|].
  split; [intros name Hne; by apply collection_set_collection_other|].
  rewrite collection_set_collection_same.
  split; [apply length_fmap|].
  intros i d Hi. exists (mark_by_id now n d).
  split; [by rewrite list_lookup_fmap, Hi|].
  split; [intros k; apply mark_by_id_lookup_ne|].
  split; [apply mark_by_id_other|].
  intros Hd. split.
  - eapply unique_ids_eq; [exact Huniq| |exact (proj1 Hnew)|exact Hd|exact Hn].
    apply list_elem_of_lookup. eauto.
  - rewrite (mark_by_id_same _ _ _ Hd).
    split; [apply mark_verified_verified|apply mark_verified_updated_at].
Qed.

Lemma demo_w1_ok : world_ok Demo.w1.
Proof.
  unfold world_ok. rewrite demo_w1_ledger. intros name.
  unfold collection, unique_ids. simpl.
  destruct (decide (name = "otprequest")) as [->|Hne].
  - rewrite lookup_singleton_eq. simpl. split.
    + apply Forall_singleton. exists 0%N. split; [reflexivity|lia].
    + apply NoDup_singleton.
  - rewrite lookup_singleton_ne by done. simpl.
    split; [apply Forall_nil_2|apply NoDup_nil_2].
Qed.

(** X2 on the ledger left by one [start_otp]. *)
Lemma verify_otp_success_effect_witness :
  success_response = success_response
  /\ files (verify_otp Demo.clock (Demo.verify_req "123456") Demo.w1).2
     = files Demo.w1
  /\ exists dbs dbs' rec n now,
       db Demo.w1 = Some dbs
       /\ db (verify_otp Demo.clock (Demo.verify_req "123456") Demo.w1).2
          = Some dbs'
       /\ next_oid dbs' = next_oid dbs
       /\ newest_otp "9999999999" "franchise" dbs rec
       /\ rec !! "code" = Some (VStr "123456")
       /\ oid_of rec = Some n
       /\ (forall name, name <> "otprequest" ->
             collection name dbs' = collection name dbs)
       /\ length (collection "otprequest" dbs')
          = length (collection "otprequest" dbs)
       /\ forall (i : nat) (d : doc),
            collection "otprequest" dbs !! i = Some d ->
            exists d',
              collection "otprequest" dbs' !! i = Some d'
              /\ (forall k, k <> "verified" -> k <> "updated_at" ->
                    d' !! k = d !! k)
              /\ (oid_of d <> Some n -> d' = d)
              /\ (oid_of d = Some n ->
                    d = rec
                    /\ d' !! "verified" = Some (VBool true)
                    /\ d' !! "updated_at" = Some (VTime now)).
Proof.
  exact (verify_otp_success_effect Demo.clock (Demo.verify_req "123456")
           Demo.w1 _ success_response demo_w1_ok eq_refl).
Defined.

(** ** A failed OTP check in the mall submission *)

(** X1. A mall submission that carries a non-empty [otp_code] whose
    verification raises fails with that same exception before anything is
    written: the upload is not stored and no document is created; the
    store and the files are as before. *)
Theorem submit_mall_otp_failure (clock : nat -> Instant)
    (contact_name email phone mall_name location_city : string)
    (available_space_sqft : Z) (message : option string) (c : string)
    (floorplan : option UploadFile.t) (w w' : World) (e : exn) :
  c <> "" ->
  verify_otp clock
    {| OTPVerifyRequest.phone := phone;
       OTPVerifyRequest.purpose := "mall";
       OTPVerifyRequest.code := c |} w = (Raise e, w') ->
  submit_mall clock contact_name email phone mall_name location_city
    available_space_sqft message (Some c) floorplan w = (Raise e, w')
  /\ db w' = db w
  /\ files w' = files w.
Proof.
  intros Hc Hv. split.
  - unfold submit_mall. unfold mbind at 1, M_bind at 1.
    by rewrite (otp_gate_raise _ _ _ _ _ _ _ Hc Hv).
  - by destruct (verify_otp_raise_world _ _ _ _ _ Hv) as [->| ->].
Qed.

(** X1 with a code for which no mall OTP was ever started. *)
Lemma submit_mall_otp_failure_witness :
  submit_mall Demo.clock "Ravi" "ravi@example.com" "9999999999" "Orion Mall"
    "Pune" 1200 None (Some "123456") (Some Demo.floorplan) Demo.w1
  = (Raise NotFound, Demo.w1)
  /\ db Demo.w1 = db Demo.w1
  /\ files Demo.w1 = files Demo.w1.
Proof.
  apply (submit_mall_otp_failure Demo.clock "Ravi" "ravi@example.com"
           "9999999999" "Orion Mall" "Pune" 1200 None "123456"
           (Some Demo.floorplan) Demo.w1 Demo.w1 NotFound).
  - discriminate.
  - vm_compute. reflexivity.
Defined.

(** ** When verification succeeds *)









(** ** The shape of the ledger *)

Lemma validates_otp_record (req : OTPStartRequest.t) (oid : N) (t e : Z) :
  OTPStartRequest.valid req = true ->
  OTPRequest.validates
    (otp_record oid t (OTPStartRequest.phone req)
       (OTPStartRequest.purpose req) "123456" e) = true.
Proof.
  unfold OTPStartRequest.valid, OTPRequest.validates.
  intros [[H1 H2]%andb_prop H3]%andb_prop.
  rewrite otp_record_code, otp_record_expires_at.
  change (otp_record oid t (OTPStartRequest.phone req)
            (OTPStartRequest.purpose req) "123456" e !! "phone")
    with (Some (VStr (OTPStartRequest.phone req))).
  change (otp_record oid t (OTPStartRequest.phone req)
            (OTPStartRequest.purpose req) "123456" e !! "purpose")
    with (Some (VStr (OTPStartRequest.purpose req))).
  change (otp_record oid t (OTPStartRequest.phone req)
            (OTPStartRequest.purpose req) "123456" e !! "verified")
    with (Some (VBool false)).
  cbv beta iota. rewrite H1, H2, H3. reflexivity.
Qed.

Lemma validates_apply_set (now : Z) (d : doc) :
  OTPRequest.validates d = true ->
  OTPRequest.validates
    (apply_set [("verified", VBool true); ("updated_at", VTime now)] d)
  = true.
Proof.
  fold (mark_verified now d). unfold OTPRequest.validates.
  rewrite !(mark_verified_lookup_ne now d) by done.
  rewrite mark_verified_verified.
  destruct (d !! "phone") as [[]|]; try done.
  destruct (d !! "code") as [[]|]; try done.
  destruct (d !! "purpose") as [[]|]; try done.
  destruct (d !! "expires_at") as [[]|]; try done.
  intros [H _]%andb_prop. cbv beta iota. by rewrite H.
Qed.

Lemma validates_update_one (flt : list (string * value)) (now : Z)
    (c : list doc) :
  Forall (fun x => OTPRequest.validates x = true) c ->
  Forall (fun x => OTPRequest.validates x = true)
    (update_one flt [("verified", VBool true); ("updated_at", VTime now)] c).
Proof.
  induction 1 as [|d c Hd Hc IH]; simpl; [done|].
  destruct (matches flt d).
  - constructor; [by apply validates_apply_set|done].
  - by constructor.
Qed.


Section Ledger.

Variable clock : nat -> Instant.

Lemma start_otp_down (req : OTPStartRequest.t) (w : World) :
  db w = None ->
  start_otp clock req w
  = (Raise StoreUnavailable, set_ticks (S (ticks w)) w).
Proof.
  intros Hdb. unfold start_otp, create_document. run. by rewrite Hdb.
Qed.

Lemma start_otp_ledger_ok (req : OTPStartRequest.t) (w : World) :
  OTPStartRequest.valid req = true ->
  ledger_ok w -> ledger_ok (start_otp clock req w).2.
Proof.
  intros Hvalid H. unfold ledger_ok in *.
  destruct (db w) as [dbs|] eqn:Hdb.
  - rewrite (start_otp_connected _ _ _ _ Hdb). simpl.
    unfold collection at 1. simpl. rewrite lookup_insert_eq. simpl.
    apply Forall_app. split; [exact H|].
    apply Forall_singleton. by apply validates_otp_record.
  - rewrite (start_otp_down _ _ Hdb). simpl. by rewrite Hdb.
Qed.

Lemma verify_otp_ledger_ok (req : OTPVerifyRequest.t) (w : World) :
  ledger_ok w -> ledger_ok (verify_otp clock req w).2.
Proof.
  intros H. destruct (verify_otp clock req w) as [[r|e] w'] eqn:Hrun; simpl.
  - destruct (verify_otp_ok_inv _ _ _ _ _ Hrun)
      as (_ & _ & dbs & rec & oid & now & Hdb & _ & _ & _ & Hdb').
    unfold ledger_ok in *. rewrite Hdb in H. rewrite Hdb'.
    rewrite collection_set_collection_same. by apply validates_update_one.
  - by destruct (verify_otp_raise_world _ _ _ _ _ Hrun) as [->| ->].
Qed.

Lemma otp_gate_ledger_ok (phone purpose : string) (otp_code : option string)
    (w : World) :
  ledger_ok w -> ledger_ok (otp_gate clock phone purpose otp_code w).2.
Proof.
  intros H. unfold otp_gate. destruct otp_code as [c|]; [|done].
  destruct (truthy (VStr c)); [|done].
  unfold try_except_HTTPException, mbind, M_bind.
  set (req := {| OTPVerifyRequest.phone := phone |}).
  pose proof (verify_otp_ledger_ok req w H) as H'.
  destruct (verify_otp clock req w) as [[r|e] w']; [done|]. by destruct e.
Qed.

Lemma create_document_ledger_ok (name : string) (data : doc) (w : World) :
  name <> "otprequest" ->
  ledger_ok w -> ledger_ok (create_document clock name data w).2.
Proof.
  intros Hne H. unfold ledger_ok in *.
  destruct (db w) as [dbs|] eqn:Hdb.
  - rewrite (create_document_connected _ _ _ _ _ Hdb). cbn [snd db].
    by rewrite collection_insert_one_other.
  - rewrite (create_document_down _ _ _ _ Hdb). simpl. by rewrite Hdb.
Qed.

Lemma save_floorplan_ledger_ok (floorplan : option UploadFile.t)
    (w : World) :
  ledger_ok w -> ledger_ok (save_floorplan clock floorplan w).2.
Proof.
  intros H. destruct floorplan as [f|].
  - by rewrite save_floorplan_some.
  - by rewrite save_floorplan_none.
Qed.

Lemma handle_ledger_ok (r : request) (w : World) :
  request_valid r = true ->
  ledger_ok w -> ledger_ok (handle clock r w).2.
Proof.
  intros Hvalid H. destruct r; simpl.
  - by apply start_otp_ledger_ok.
  - by apply verify_otp_ledger_ok.
  - unfold submit_franchise. unfold mbind at 1, M_bind at 1.
    pose proof (otp_gate_ledger_ok (FranchisePayload.phone payload)
                  "franchise" (FranchisePayload.otp_code payload) w H) as H1.
    destruct (otp_gate clock _ _ _ w) as [[[]|e] w1]; [|done].
    unfold mbind, M_bind.
    pose proof (create_document_ledger_ok "franchiseinquiry"
                  (FranchisePayload.model_dump payload) w1
                  ltac:(done) H1) as H2.
    by destruct (create_document clock _ _ w1) as [[]].
  - unfold submit_mall. unfold mbind at 1, M_bind at 1.
    pose proof (otp_gate_ledger_ok phone "mall" otp_code w H) as H1.
    destruct (otp_gate clock _ _ _ w) as [[[]|e] w1]; [|done].
    unfold mbind at 1, M_bind at 1.
    pose proof (save_floorplan_ledger_ok floorplan w1 H1) as H2.
    destruct (save_floorplan clock floorplan w1) as [[m|e] w2]; [|done].
    unfold mbind, M_bind.
    pose proof (create_document_ledger_ok "mallinquiry"
                  (mall_data contact_name email phone mall_name location_city
                     available_space_sqft message m) w2
                  ltac:(done) H2) as H3.
    by destruct (create_document clock _ _ w2) as [[]].
Qed.

End Ledger.

(** X6. The ledger keeps the shape of the [OTPRequest] schema.  From a
    world whose store satisfies the store invariant and whose OTP records
    all have that shape, any sequence of requests whose [start_otp] bodies
    passed the validation of [OTPStartRequest] leads to such a world
    again: every record has a phone of 10 to 15 characters, a code of 4 to
    8, a purpose of [franchise] or [mall], a boolean [verified] and a
    timestamp [expires_at], and identifiers stay unique. *)
Theorem served_ledger_conforms (clock : nat -> Instant) (rs : list request)
    (w : World) :
  world_ok w ->
  ledger_ok w ->
  Forall (fun r => request_valid r = true) rs ->
  world_ok (serve clock rs w) /\ ledger_ok (serve clock rs w).
Proof.
  intros Hw Hl Hrs. split; [by apply serve_world_ok|].
  unfold serve. revert w Hw Hl.
  induction Hrs as [|r rs Hr Hrs IH]; intros w Hw Hl; [done|].
  simpl. apply IH.
  - by apply handle_world_ok.
  - by apply handle_ledger_ok.
Qed.

(** X6 from the empty store: two starts, a verification, a submission. *)
Lemma served_ledger_conforms_witness :
  let rs := [PostOtpStart Demo.start_req;
             PostOtpStart Demo.start_req;
             PostOtpVerify (Demo.verify_req "123456");
             PostFranchise (Demo.payload (Some "123456"))] in
  world_ok (serve Demo.clock rs Demo.w0)
  /\ ledger_ok (serve Demo.clock rs Demo.w0).
Proof.
  intros rs.
  apply (served_ledger_conforms Demo.clock rs Demo.w0).
  - apply store_ok_empty.
  - apply Forall_nil_2.
  - repeat constructor.
Defined.



(** ** Submissions that carry a valid code *)



Section ValidCode.

Variable clock : nat -> Instant.
Variables phone purpose c : string.
Variable e : Z.
Variable oid : N.


End ValidCode.











(** ** Records of other phones and purposes *)

Lemma matches_otp_record_other (oid : N) (t e : Z)
    (phone purpose phone' purpose' code : string) :
  phone' <> phone \/ purpose' <> purpose ->
  matches (otp_filter phone purpose) (otp_record oid t phone' purpose' code e)
  = false.
Proof.
  intros H. unfold matches, otp_filter, otp_record. simpl.
  rewrite !lookup_insert_ne by done. rewrite lookup_insert_eq.
  rewrite !lookup_insert_ne by done. rewrite lookup_insert_eq. simpl.
  destruct H as [H|H]; apply String.eqb_neq in H; rewrite H.
  - reflexivity.
  - by rewrite andb_false_r.
Qed.

(** The answer of [verify_otp] depends on the world only through the
    record its query returns and the clock. *)
Lemma verify_otp_answer_ext (clock : nat -> Instant)
    (req : OTPVerifyRequest.t) (w1 w2 : World) :
  latest_otp (OTPVerifyRequest.phone req) (OTPVerifyRequest.purpose req)
    (db w1)
  = latest_otp (OTPVerifyRequest.phone req) (OTPVerifyRequest.purpose req)
      (db w2) ->
  ticks w1 = ticks w2 ->
  (verify_otp clock req w1).1 = (verify_otp clock req w2).1.
Proof.
  destruct w1 as [o1 f1 t1], w2 as [o2 f2 t2]. simpl.
  intros El <-. unfold verify_otp. run. rewrite <- El.
  destruct (latest_otp _ _ o1) as [|rec rest] eqn:E1; [done|].
  symmetry in El.
  destruct (latest_otp_cons _ _ _ _ _ E1) as (_ & d1 & -> & _).
  destruct (latest_otp_cons _ _ _ _ _ El) as (_ & d2 & -> & _).
  destruct (negb _); [done|].
  destruct (truthy (dict_get rec "expires_at")); run.
  - unfold dict_getitem.
    destruct (rec !! "expires_at") as [v|]; run; [|done].
    destruct v; run; try done.
    destruct (t <? _); run; [done|].
    by destruct (rec !! "_id"); run.
  - unfold dict_getitem. by destruct (rec !! "_id"); run.
Qed.

(** X11. Starting an OTP for one phone and purpose does not change what
    [verify_otp] answers for another phone or another purpose: a code
    started for [mall] does not open [franchise], nor one phone
    another's. *)
Theorem start_otp_other_key (clock : nat -> Instant)
    (req' : OTPStartRequest.t) (phone purpose code : string) (w : World)
    (n : nat) :
  OTPStartRequest.phone req' <> phone
  \/ OTPStartRequest.purpose req' <> purpose ->
  let req := {| OTPVerifyRequest.phone := phone;
                OTPVerifyRequest.purpose := purpose;
                OTPVerifyRequest.code := code |} in
  (verify_otp clock req (set_ticks n (start_otp clock req' w).2)).1
  = (verify_otp clock req (set_ticks n w)).1.
Proof.
  intros Hne req. apply verify_otp_answer_ext; [|done].
  change (db (set_ticks n (start_otp clock req' w).2))
    with (db (start_otp clock req' w).2).
  change (db (set_ticks n w)) with (db w).
  subst req. cbn [OTPVerifyRequest.phone OTPVerifyRequest.purpose].
  destruct (db w) as [dbs|] eqn:Hdb.
  - rewrite (start_otp_connected _ _ _ _ Hdb). cbn [snd].
    destruct (db (after_start_otp clock req' dbs w)) as [d1|] eqn:Hd1;
      [|done].
    assert (collection "otprequest" d1
            = (collection "otprequest" dbs
               ++ [otp_record (next_oid dbs) (utc (clock (S (ticks w))))
                     (OTPStartRequest.phone req')
                     (OTPStartRequest.purpose req') "123456"
                     (utc (clock (ticks w)) + timedelta_minutes 10)])%list)
      as Hc.
    { injection Hd1 as <-. unfold collection at 1. simpl.
      by rewrite lookup_insert_eq. }
    unfold latest_otp. rewrite Hc, find_app.
    assert (find (otp_filter phone purpose)
              [otp_record (next_oid dbs) (utc (clock (S (ticks w))))
                 (OTPStartRequest.phone req') (OTPStartRequest.purpose req')
                 "123456" (utc (clock (ticks w)) + timedelta_minutes 10)]
            = []) as ->.
    { unfold find. cbn [List.filter].
      by rewrite matches_otp_record_other. }
    by rewrite app_nil_r.
  - rewrite (start_otp_down _ _ _ Hdb). cbn [snd].
    change (db (set_ticks (S (ticks w)) w)) with (db w). by rewrite Hdb.
Qed.

(** X11: a mall OTP for the demo phone does not open a franchise
    verification. *)
Lemma start_otp_other_key_witness :
  (verify_otp Demo.clock (Demo.verify_req "123456")
     (set_ticks 2 (start_otp Demo.clock Demo.mall_start_req Demo.w0).2)).1
  = (verify_otp Demo.clock (Demo.verify_req "123456")
       (set_ticks 2 Demo.w0)).1.
Proof.
  apply (start_otp_other_key Demo.clock Demo.mall_start_req "9999999999"
           "franchise" "123456" Demo.w0 2).
  right. discriminate.
Defined.

(** ** Names of stored uploads *)

Lemma digit_mod_inj (a b : nat) :
  digit a = digit b -> (a mod 10 = b mod 10)%nat.
Proof.
  unfold digit.
  pose proof (Nat.mod_upper_bound a 10 ltac:(done)) as Ha.
  pose proof (Nat.mod_upper_bound b 10 ltac:(done)) as Hb.
  destruct (a mod 10)%nat as [|[|[|[|[|[|[|[|[|[|?]]]]]]]]]];
    destruct (b mod 10)%nat as [|[|[|[|[|[|[|[|[|[|?]]]]]]]]]];
    try reflexivity; try discriminate; lia.
Qed.

Lemma String_inj (c c' : ascii) (s s' : string) :
  String c s = String c' s' -> c = c' /\ s = s'.
Proof. by intros [= -> ->]. Qed.

Lemma append_assoc (a b c : string) : (a +:+ b) +:+ c = a +:+ (b +:+ c).
Proof.
  induction a as [|x a IH]; [done|].
  change (String x ((a +:+ b) +:+ c) = String x (a +:+ (b +:+ c))).
  by f_equal.
Qed.

Lemma div10_mod10_inj (a b : nat) :
  (a / 10 = b / 10)%nat -> (a mod 10 = b mod 10)%nat -> a = b.
Proof.
  intros H1 H2.
  rewrite (Nat.div_mod_eq a 10), (Nat.div_mod_eq b 10). by rewrite H1, H2.
Qed.

Lemma pad2_inj (a b : nat) :
  (a < 100)%nat -> (b < 100)%nat -> pad2 a = pad2 b -> a = b.
Proof.
  unfold pad2. intros Ha Hb [H1 [H2 _]%String_inj]%String_inj.
  apply digit_mod_inj in H1, H2.
  apply div10_mod10_inj; [|done].
  assert (a / 10 < 10)%nat as Ha'
    by (apply Nat.Div0.div_lt_upper_bound; lia).
  assert (b / 10 < 10)%nat as Hb'
    by (apply Nat.Div0.div_lt_upper_bound; lia).
  by rewrite (Nat.mod_small (a / 10) 10), (Nat.mod_small (b / 10) 10) in H1.
Qed.

Lemma pad4_inj (a b : nat) :
  Z.of_nat a <= 9999 -> Z.of_nat b <= 9999 -> pad4 a = pad4 b -> a = b.
Proof.
  unfold pad4, pad2.
  intros Ha Hb [H1 [H2 [H3 [H4 _]%String_inj]%String_inj]%String_inj]%String_inj.
  apply digit_mod_inj in H1, H2, H3, H4.
  apply div10_mod10_inj; [|done].
  apply div10_mod10_inj; [|done].
  rewrite !Nat.Div0.div_div. change (10 * 10)%nat with 100%nat.
  apply div10_mod10_inj; [|done].
  rewrite !Nat.Div0.div_div. change (100 * 10)%nat with 1000%nat.
  assert (a / 1000 < 10)%nat as Ha'
    by (apply Nat.Div0.div_lt_upper_bound; lia).
  assert (b / 1000 < 10)%nat as Hb'
    by (apply Nat.Div0.div_lt_upper_bound; lia).
  by rewrite (Nat.mod_small (a / 1000) 10), (Nat.mod_small (b / 1000) 10)
    in H1.
Qed.

Lemma pad2_app_inj (a b : nat) (s s' : string) :
  pad2 a +:+ s = pad2 b +:+ s' -> pad2 a = pad2 b /\ s = s'.
Proof.
  unfold pad2. cbn [String.append].
  intros [H1 [H2 H3]%String_inj]%String_inj. split; congruence.
Qed.

Lemma pad4_app_inj (a b : nat) (s s' : string) :
  pad4 a +:+ s = pad4 b +:+ s' -> pad4 a = pad4 b /\ s = s'.
Proof.
  unfold pad4, pad2. cbn [String.append].
  intros [H1 [H2 [H3 [H4 H5]%String_inj]%String_inj]%String_inj]%String_inj.
  split; congruence.
Qed.

(** X12. Two uploads get the same stored name exactly when they were
    taken in the same second and have the same original name: the
    timestamp is printed without loss and its fixed width keeps it apart
    from the original name. *)
Theorem stored_filename_collision (t t' : DateTime)
    (original original' : string) :
  DateTime_valid t ->
  DateTime_valid t' ->
  stored_filename t original = stored_filename t' original'
  <-> t = t' /\ original = original'.
Proof.
  intros (Hy & Hm & Hd & Hh & Hmi & Hs) (Hy' & Hm' & Hd' & Hh' & Hmi' & Hs').
  split; [|by intros [-> ->]].
  unfold stored_filename, strftime_YmdHMS.
  rewrite !append_assoc.
  intros [E1 H]%pad4_app_inj. apply pad4_inj in E1; [|done..].
  apply pad2_app_inj in H as [E2 H]. apply pad2_inj in E2; [|lia..].
  apply pad2_app_inj in H as [E3 H]. apply pad2_inj in E3; [|lia..].
  apply pad2_app_inj in H as [E4 H]. apply pad2_inj in E4; [|lia..].
  apply pad2_app_inj in H as [E5 H]. apply pad2_inj in E5; [|lia..].
  apply pad2_app_inj in H as [E6 H]. apply pad2_inj in E6; [|lia..].
  cbn [String.append] in H. apply String_inj in H as [_ ->].
  destruct t, t'. simpl in *. by subst.
Qed.

(** X12 for two uploads of the same name one second apart. *)
Lemma stored_filename_collision_witness :
  stored_filename (local (Demo.clock 1)) "plan.png"
  = stored_filename (local (Demo.clock 2)) "plan.png"
  <-> local (Demo.clock 1) = local (Demo.clock 2) /\ "plan.png" = "plan.png".
Proof.
  apply (stored_filename_collision (local (Demo.clock 1))
           (local (Demo.clock 2)) "plan.png" "plan.png").
  - unfold DateTime_valid. simpl. lia.
  - unfold DateTime_valid. simpl. lia.
Defined.

(** ** Uploads taken in the same second *)




(** ** What the handlers write to disk *)

Section Files.

Variable clock : nat -> Instant.

Lemma create_document_files (name : string) (data : doc) (w : World) :
  files (create_document clock name data w).2 = files w.
Proof.
  destruct (db w) as [dbs|] eqn:Hdb.
  - by rewrite (create_document_connected _ _ _ _ _ Hdb).
  - by rewrite (create_document_down _ _ _ _ Hdb).
Qed.

Lemma start_otp_files (req : OTPStartRequest.t) (w : World) :
  files (start_otp clock req w).2 = files w.
Proof.
  destruct (db w) as [dbs|] eqn:Hdb.
  - by rewrite (start_otp_connected _ _ _ _ Hdb).
  - by rewrite (start_otp_down _ _ _ Hdb).
Qed.

Lemma verify_otp_files (req : OTPVerifyRequest.t) (w : World) :
  files (verify_otp clock req w).2 = files w.
Proof.
  destruct (verify_otp clock req w) as [[r|e] w'] eqn:Hrun; simpl.
  - by destruct (verify_otp_ok_inv _ _ _ _ _ Hrun) as (_ & ? & _).
  - by destruct (verify_otp_raise_world _ _ _ _ _ Hrun) as [->| ->].
Qed.

Lemma otp_gate_files (phone purpose : string) (otp_code : option string)
    (w : World) :
  files (otp_gate clock phone purpose otp_code w).2 = files w.
Proof.
  unfold otp_gate. destruct otp_code as [c|]; [|done].
  destruct (truthy (VStr c)); [|done].
  unfold try_except_HTTPException, mbind, M_bind.
  set (req := {| OTPVerifyRequest.phone := phone |}).
  pose proof (verify_otp_files req w) as H.
  destruct (verify_otp clock req w) as [[r|e] w']; [done|]. by destruct e.
Qed.

End Files.

(** X14. The handlers write to disk in one place only: a mall submission
    with a file part either leaves the files as they were (when its OTP
    check fails) or stores exactly one file, the upload under its
    timestamped name; every other request, and a mall submission without a
    file, leaves every file as it was. *)
Theorem handle_files (clock : nat -> Instant) (r : request) (w : World) :
  match r with
  | PostMall _ _ _ _ _ _ _ _ (Some f) =>
      files (handle clock r w).2 = files w
      \/ exists n : nat,
           files (handle clock r w).2
           = <[upload_path
                 (stored_filename (local (clock n)) (UploadFile.filename f))
               := UploadFile.content f]> (files w)
  | _ => files (handle clock r w).2 = files w
  end.
Proof.
  destruct r as [req|req|payload|contact_name email phone mall_name
                   location_city available_space_sqft message otp_code
                   floorplan].
  - apply start_otp_files.
  - apply verify_otp_files.
  - simpl. unfold submit_franchise. unfold mbind at 1, M_bind at 1.
    pose proof (otp_gate_files clock (FranchisePayload.phone payload)
                  "franchise" (FranchisePayload.otp_code payload) w) as H1.
    destruct (otp_gate clock _ _ _ w) as [[[]|e] w1]; [|done].
    unfold mbind, M_bind.
    pose proof (create_document_files clock "franchiseinquiry"
                  (FranchisePayload.model_dump payload) w1) as H2.
    destruct (create_document clock _ _ w1) as [[]]; simpl in *; congruence.
  - pose proof (otp_gate_files clock phone "mall" otp_code w) as H1.
    assert (forall floorplan,
              handle clock
                (PostMall contact_name email phone mall_name location_city
                   available_space_sqft message otp_code floorplan) w
              = match otp_gate clock phone "mall" otp_code w with
                | (Ok _, w1) =>
                    (file_meta ← save_floorplan clock floorplan;
                     doc_id ← create_document clock "mallinquiry"
                                (mall_data contact_name email phone mall_name
                                   location_city available_space_sqft message
                                   file_meta);
                     mret (mall_response doc_id file_meta)) w1
                | (Raise e, w1) => (Raise e, w1)
                end) as Hrun by done.
    destruct floorplan as [f|]; cbv beta iota; rewrite Hrun;
      destruct (otp_gate clock phone "mall" otp_code w) as [[[]|e] w1];
      cbn [snd] in H1.
    + right. exists (ticks w1).
      unfold mbind at 1, M_bind at 1. rewrite save_floorplan_some.
      unfold mbind, M_bind.
      set (w2 := after_upload _ _ w1). set (data := mall_data _ _ _ _ _ _ _ _).
      pose proof (create_document_files clock "mallinquiry" data w2) as H2.
      rewrite <- H1.
      destruct (create_document clock _ _ w2) as [[]]; exact H2.
    + by left.
    + unfold mbind at 1, M_bind at 1. rewrite save_floorplan_none.
      unfold mbind, M_bind.
      set (data := mall_data _ _ _ _ _ _ _ _).
      pose proof (create_document_files clock "mallinquiry" data w1) as H2.
      destruct (create_document clock _ _ w1) as [[]]; simpl in *;
        congruence.
    + done.
Qed.

(** ** Nothing is ever deleted *)

Lemma grows_refl (d : Database) : grows d d.
Proof. split; [lia|]. intros name. by split. Qed.

Lemma grows_trans (d1 d2 d3 : Database) :
  grows d1 d2 -> grows d2 d3 -> grows d1 d3.
Proof.
  intros [Hn1 H1] [Hn2 H2]. split; [lia|]. intros name.
  destruct (H1 name) as [Ha Hb], (H2 name) as [Hc Hd]. split.
  - by etrans.
  - intros Hne. etrans; [by apply Hb|by apply Hd].
Qed.

Lemma grows_insert_one (name : string) (data : doc) (d : Database) :
  grows d (insert_one name data d).2.
Proof.
  split; [simpl; lia|]. intros name'. unfold oids.
  destruct (decide (name = name')) as [<-|Hne].
  - rewrite collection_insert_one_same. split.
    + rewrite fmap_app. by apply prefix_app_r.
    + intros _. by apply prefix_app_r.
  - rewrite collection_insert_one_other by done. by split.
Qed.

Lemma oids_update_one (flt : list (string * value)) (now : Z)
    (c : list doc) :
  oid_of <$> update_one flt
               [("verified", VBool true); ("updated_at", VTime now)] c
  = oid_of <$> c.
Proof.
  induction c as [|d c IH]; [done|]. cbn [update_one].
  destruct (matches flt d).
  - rewrite !fmap_cons. f_equal. apply (oid_of_mark_verified now d).
  - rewrite !fmap_cons. by f_equal.
Qed.

Lemma grows_update_one (flt : list (string * value)) (now : Z)
    (d : Database) :
  grows d
    (set_collection "otprequest"
       (update_one flt [("verified", VBool true); ("updated_at", VTime now)]
          (collection "otprequest" d))
       d).
Proof.
  split; [simpl; lia|]. intros name. unfold oids.
  destruct (decide (name = "otprequest")) as [->|Hne].
  - rewrite collection_set_collection_same, oids_update_one. by split.
  - rewrite collection_set_collection_other by done. by split.
Qed.

Lemma world_grows_refl (w : World) : world_grows w w.
Proof. unfold world_grows. destruct (db w); [apply grows_refl|done]. Qed.

Lemma world_grows_trans (w1 w2 w3 : World) :
  world_grows w1 w2 -> world_grows w2 w3 -> world_grows w1 w3.
Proof.
  unfold world_grows.
  destruct (db w1), (db w2), (db w3); try done. apply grows_trans.
Qed.

Lemma world_grows_same_db (w w' : World) : db w' = db w -> world_grows w w'.
Proof.
  intros H. unfold world_grows. rewrite H.
  destruct (db w); [apply grows_refl|done].
Qed.

Section Growth.

Variable clock : nat -> Instant.

Lemma create_document_grows (name : string) (data : doc) (w : World) :
  world_grows w (create_document clock name data w).2.
Proof.
  unfold world_grows. destruct (db w) as [dbs|] eqn:Hdb.
  - rewrite (create_document_connected _ _ _ _ _ Hdb). cbn [snd db].
    apply grows_insert_one.
  - rewrite (create_document_down _ _ _ _ Hdb). cbn [snd]. by rewrite Hdb.
Qed.

Lemma start_otp_grows (req : OTPStartRequest.t) (w : World) :
  world_grows w (start_otp clock req w).2.
Proof.
  unfold start_otp.
  unfold mbind at 1, M_bind at 1, datetime_now_utc. run.
  set (w1 := set_ticks (S (ticks w)) w).
  set (data := <["phone" := _]> _).
  pose proof (create_document_grows "otprequest" data w1) as H.
  apply (world_grows_trans w w1); [by apply world_grows_same_db|].
  by destruct (create_document clock "otprequest" data w1) as [[]].
Qed.

Lemma verify_otp_grows (req : OTPVerifyRequest.t) (w : World) :
  world_grows w (verify_otp clock req w).2.
Proof.
  destruct (verify_otp clock req w) as [[r|e] w'] eqn:Hrun; cbn [snd].
  - destruct (verify_otp_ok_inv _ _ _ _ _ Hrun)
      as (_ & _ & dbs & rec & oid & now & Hdb & _ & _ & _ & Hdb').
    unfold world_grows. rewrite Hdb, Hdb'. apply grows_update_one.
  - apply world_grows_same_db.
    by destruct (verify_otp_raise_world _ _ _ _ _ Hrun) as [->| ->].
Qed.

Lemma otp_gate_grows (phone purpose : string) (otp_code : option string)
    (w : World) :
  world_grows w (otp_gate clock phone purpose otp_code w).2.
Proof.
  unfold otp_gate. destruct otp_code as [c|]; [|apply world_grows_refl].
  destruct (truthy (VStr c)); [|apply world_grows_refl].
  unfold try_except_HTTPException, mbind, M_bind.
  set (req := {| OTPVerifyRequest.phone := phone |}).
  pose proof (verify_otp_grows req w) as H.
  destruct (verify_otp clock req w) as [[r|e] w']; [done|]. by destruct e.
Qed.

Lemma save_floorplan_grows (floorplan : option UploadFile.t) (w : World) :
  world_grows w (save_floorplan clock floorplan w).2.
Proof.
  apply world_grows_same_db. destruct floorplan as [f|].
  - by rewrite save_floorplan_some.
  - by rewrite save_floorplan_none.
Qed.

Lemma handle_grows (r : request) (w : World) :
  world_grows w (handle clock r w).2.
Proof.
  destruct r; cbn [handle].
  - apply start_otp_grows.
  - apply verify_otp_grows.
  - unfold submit_franchise. unfold mbind at 1, M_bind at 1.
    pose proof (otp_gate_grows (FranchisePayload.phone payload) "franchise"
                  (FranchisePayload.otp_code payload) w) as H1.
    destruct (otp_gate clock _ _ _ w) as [[[]|e] w1]; [|done].
    unfold mbind, M_bind.
    pose proof (create_document_grows "franchiseinquiry"
                  (FranchisePayload.model_dump payload) w1) as H2.
    apply (world_grows_trans w w1); [done|].
    by destruct (create_document clock _ _ w1) as [[]].
  - unfold submit_mall. unfold mbind at 1, M_bind at 1.
    pose proof (otp_gate_grows phone "mall" otp_code w) as H1.
    destruct (otp_gate clock _ _ _ w) as [[[]|e] w1]; [|done].
    unfold mbind at 1, M_bind at 1.
    pose proof (save_floorplan_grows floorplan w1) as H2.
    destruct (save_floorplan clock floorplan w1) as [[m|e] w2];
      [|by apply (world_grows_trans w w1)].
    unfold mbind, M_bind.
    pose proof (create_document_grows "mallinquiry"
                  (mall_data contact_name email phone mall_name location_city
                     available_space_sqft message m) w2) as H3.
    apply (world_grows_trans w w1); [done|].
    apply (world_grows_trans w1 w2); [done|].
    by destruct (create_document clock _ _ w2) as [[]].
Qed.

End Growth.

(** X15. No request deletes anything.  After any sequence of requests a
    world with a store still has one (and a world without still has
    none); every collection still carries the identifiers it carried, in
    the same order, possibly followed by new ones; outside the OTP ledger
    the stored documents are unchanged; and the identifier counter has not
    gone back. *)
Theorem serve_grows (clock : nat -> Instant) (rs : list request)
    (w : World) :
  world_grows w (serve clock rs w).
Proof.
  unfold serve. revert w.
  induction rs as [|r rs IH]; intros w; [apply world_grows_refl|].
  cbn [foldl]. eapply world_grows_trans; [|apply IH].
  apply handle_grows.
Qed.

(** ** The diagnostic endpoint *)



(** X16. [test_database] lists at most ten collection names, the first
    ten the driver returned, in order; it reports [Connected] exactly
    when the database handle is set and the listing succeeded; without a
    handle it reports that the database is not initialized, with no
    names and no environment details. *)
Theorem test_database_listing (getenv : string -> option string)
    (list_collection_names : Database -> string + list string) (w : World) :
  let r := test_database getenv list_collection_names w in
  (length (Diagnostics.collections r) <= 10)%nat
  /\ (forall d names,
        db w = Some d -> list_collection_names d = inr names ->
        Diagnostics.collections r = take 10 names
        /\ Diagnostics.database r = "✅ Connected & Working")
  /\ (Diagnostics.connection_status r = "Connected"
      <-> exists d names,
            db w = Some d /\ list_collection_names d = inr names)
  /\ (db w = None ->
        r = {| Diagnostics.backend := "✅ Running";
               Diagnostics.database := "⚠️ Available but not initialized";
               Diagnostics.database_url := None;
               Diagnostics.database_name := None;
               Diagnostics.connection_status := "Not Connected";
               Diagnostics.collections := [] |}).
Proof.
  intros r. subst r. unfold test_database.
  destruct (db w) as [d|] eqn:Hdb.
  - destruct (list_collection_names d) as [msg|names] eqn:Hl; simpl.
    + split; [lia|]. split.
      { intros d' names [= <-] H. congruence. }
      split; [|done]. split; [done|].
      intros (d' & names & [= <-] & H). congruence.
    + split; [rewrite length_take; lia|]. split.
      { intros d' names' [= <-] H. rewrite Hl in H. by injection H as <-. }
      split; [|done]. split; [|done]. intros _. by exists d, names.
  - simpl. split; [lia|]. split; [done|]. split; [|done].
    split; [done|]. by intros (d & names & ? & _).
Qed.



(** X18. [test_database] never echoes the value of [DATABASE_URL]: it
    says only whether the variable is set, and a variable set to the
    empty string counts as not set; the same goes for [DATABASE_NAME],
    whose value it does echo when it is not empty. *)
Theorem test_database_environment (getenv : string -> option string)
    (list_collection_names : Database -> string + list string) (w : World) :
  let r := test_database getenv list_collection_names w in
  (Diagnostics.database_url r = None
   \/ Diagnostics.database_url r = Some "✅ Set"
   \/ Diagnostics.database_url r = Some "❌ Not Set")
  /\ (forall d, db w = Some d ->
        (Diagnostics.database_url r = Some "✅ Set"
         <-> exists s, getenv "DATABASE_URL" = Some s /\ s <> "")
        /\ (forall s, getenv "DATABASE_NAME" = Some s -> s <> "" ->
              Diagnostics.database_name r = Some s)
        /\ (getenv "DATABASE_NAME" = None
            \/ getenv "DATABASE_NAME" = Some "" ->
            Diagnostics.database_name r = Some "❌ Not Set")).
Proof.
  intros r.
  assert (forall d, db w = Some d ->
            Diagnostics.database_url r
            = Some (if truthy (of_optional_str (getenv "DATABASE_URL"))
                    then "✅ Set" else "❌ Not Set")
            /\ Diagnostics.database_name r
               = Some (match getenv "DATABASE_NAME" with
                       | Some s => if truthy (VStr s) then s else "❌ Not Set"
                       | None => "❌ Not Set"
                       end)) as Hset.
  { intros d Hdb. subst r. unfold test_database. rewrite Hdb.
    by destruct (list_collection_names d). }
  split.
  - destruct (db w) as [d|] eqn:Hdb.
    + destruct (Hset d eq_refl) as [-> _].
      destruct (truthy _); [right; left|right; right]; done.
    + left. subst r. unfold test_database. by rewrite Hdb.
  - intros d Hdb. destruct (Hset d Hdb) as [-> ->].
    split; [|split].
    + destruct (getenv "DATABASE_URL") as [s|]; simpl.
      * destruct (String.eqb_spec s "") as [->|Hne]; simpl.
        -- split; [done|]. by intros (s & [= <-] & ?).
        -- split; [by eauto|done].
      * split; [done|]. by intros (s & ? & _).
    + intros s -> Hne. simpl. apply String.eqb_neq in Hne. by rewrite Hne.
    + by intros [-> | ->].
Qed.
